(** * RigolDS1000: a shallow embedding of the oscilloscope driver

    Source: photonmover/instruments/Oscilloscopes/RigolDS1000.py.

    The driver is a sequence of argument checks, formatted SCPI command
    strings sent over a VISA session, and the parsing of two kinds of
    replies.  The embedding keeps that shape: every method is a computation
    in a small state-and-exception monad over a [session], which records
    everything the method does (commands written, reads, prints, sleeps,
    files saved) and holds the replies the instrument will give.

    Modelling decisions, all local to the definitions below:
    - Python [int] is [Z]; channels, bandwidth flags and averaging counts
      are integers.
    - Python [float] is [pyfloat]: an exact rational or one of the three
      non-finite values.  Binary rounding, overflow to infinity and the sign
      of zero are not represented.
    - [bytes] and [str] are both [string] (a list of 8-bit characters).
    - the session is assumed open ([self.gpib] is a live resource). *)

From Stdlib Require Import ZArith QArith List String Ascii Bool Lia.
From Stdlib Require Import DecimalString.
Import ListNotations.

Local Open Scope string_scope.
Local Open Scope Z_scope.

(** ** Python values *)

Module Py.

(** A Python float: exact rationals (kept in lowest terms by the
    arithmetic below) and the non-finite values. *)
Inductive pyfloat : Type :=
| Finite (q : Q)
| PosInf
| NegInf
| NaN.

(** The exceptions the driver can run into. *)
Inductive exn : Type :=
| ValueError
| IndexError
| OverflowError
| VisaIOError.

Inductive result (A : Type) : Type :=
| Ok (a : A)
| Raise (e : exn).
Arguments Ok {A} a.
Arguments Raise {A} e.

Definition of_Z (z : Z) : pyfloat := Finite (inject_Z z).

Definition Qsign (q : Q) : Z := Z.sgn (Qnum q).

Definition inf_of_sign (s : Z) : pyfloat :=
  if s =? 0 then NaN else if 0 <? s then PosInf else NegInf.

Definition sign_of (x : pyfloat) : Z :=
  match x with
  | Finite q => Qsign q
  | PosInf => 1
  | NegInf => -1
  | NaN => 0
  end.

(** [x * y] on floats. *)
Definition mul (x y : pyfloat) : pyfloat :=
  match x, y with
  | NaN, _ | _, NaN => NaN
  | Finite a, Finite b => Finite (Qred (a * b))
  | _, _ => inf_of_sign (sign_of x * sign_of y)
  end.

(** [x + y] on floats. *)
Definition add (x y : pyfloat) : pyfloat :=
  match x, y with
  | NaN, _ | _, NaN => NaN
  | Finite a, Finite b => Finite (Qred (a + b))
  | PosInf, NegInf | NegInf, PosInf => NaN
  | PosInf, _ | _, PosInf => PosInf
  | NegInf, _ | _, NegInf => NegInf
  end.

(** [x / y] for a finite [x] and a non-zero integer constant [y]. *)
Definition div_const (x : pyfloat) (y : positive) : pyfloat :=
  match x with
  | Finite a => Finite (Qred (a / inject_Z (Zpos y)))
  | other => other
  end.

(** [int(x)]: truncation toward zero; raises on the non-finite values. *)
Definition to_int (x : pyfloat) : result Z :=
  match x with
  | Finite q => Ok (Z.quot (Qnum q) (Zpos (Qden q)))
  | PosInf | NegInf => Raise OverflowError
  | NaN => Raise ValueError
  end.

(** ["%d" % z] for an integer. *)
Definition fmt_d (z : Z) : string := NilZero.string_of_int (Z.to_int z).

(** Rounding of a non-negative rational [n/d] to an integer, ties to
    even, as the [%f] conversion does on the exact value. *)
Definition round_half_even (n : Z) (d : positive) : Z :=
  let q := n / Zpos d in
  let r := n mod Zpos d in
  match 2 * r ?= Zpos d with
  | Lt => q
  | Gt => q + 1
  | Eq => if Z.even q then q else q + 1
  end.

Fixpoint zeros (n : nat) : string :=
  match n with
  | O => EmptyString
  | S k => String "0" (zeros k)
  end.

(** Left padding with zeros up to [width] characters. *)
Definition zfill (width : nat) (s : string) : string :=
  zeros (width - String.length s) ++ s.

(** ["%.<prec>f" % x], for [prec > 0]. *)
Definition fmt_f (prec : nat) (x : pyfloat) : string :=
  match x with
  | Finite q =>
      let scale := 10 ^ Z.of_nat prec in
      let n := round_half_even (Z.abs (Qnum q) * scale) (Qden q) in
      (if Qnum q <? 0 then "-" else "")
        ++ fmt_d (n / scale) ++ "."
        ++ zfill prec (fmt_d (n mod scale))
  | PosInf => "inf"
  | NegInf => "-inf"
  | NaN => "nan"
  end.

(** [x in xs] for integers and for strings. *)
Definition in_ints (x : Z) (xs : list Z) : bool := existsb (Z.eqb x) xs.
Definition in_strs (x : string) (xs : list string) : bool :=
  existsb (String.eqb x) xs.

End Py.
Export Py.

(** ** Text: [str(bytes)], slices, [split] and [float(str)] *)

Module Text.

Definition quote1 : ascii := "'"%char.
Definition quote2 : ascii := "034"%char.
Definition backslash : ascii := "\"%char.

Fixpoint contains (c : ascii) (s : string) : bool :=
  match s with
  | EmptyString => false
  | String d rest => (d =? c)%char || contains c rest
  end.

Definition hex_digit (n : N) : ascii :=
  nth (N.to_nat n) (list_ascii_of_string "0123456789abcdef") "0"%char.

(** One byte of a [bytes] literal as [repr] prints it. *)
Definition repr_byte (quote c : ascii) : string :=
  let n := N_of_ascii c in
  if ((c =? quote) || (c =? backslash))%char then String backslash (String c "")
  else if (n =? 9)%N then "\t"
  else if (n =? 10)%N then "\n"
  else if (n =? 13)%N then "\r"
  else if ((n <? 32) || (127 <=? n))%N
       then String backslash
              (String "x" (String (hex_digit (n / 16)) (String (hex_digit (n mod 16)) "")))
  else String c "".

Fixpoint repr_body (quote : ascii) (b : string) : string :=
  match b with
  | EmptyString => EmptyString
  | String c rest => repr_byte quote c ++ repr_body quote rest
  end.

(** [str(b)] for a [bytes] object [b]: the literal [b'...'], with double
    quotes when the bytes hold a single quote and no double quote. *)
Definition str_of_bytes (b : string) : string :=
  let quote := if contains quote1 b && negb (contains quote2 b)
               then quote2 else quote1 in
  String "b" (String quote (repr_body quote b ++ String quote "")).

(** [s[start:]] for [start >= 0]. *)
Fixpoint drop (start : nat) (s : string) : string :=
  match start, s with
  | O, _ => s
  | S k, EmptyString => EmptyString
  | S k, String _ rest => drop k rest
  end.

(** [s[start:-back]] for [start >= 0] and [back > 0]. *)
Definition slice (start back : nat) (s : string) : string :=
  substring start (String.length s - back - start) s.

(** [s.split(sep)] for a one-character separator: never empty, and the
    empty string gives one empty field. *)
Fixpoint split (sep : ascii) (s : string) : list string :=
  match s with
  | EmptyString => [EmptyString]
  | String c rest =>
      if (c =? sep)%char then EmptyString :: split sep rest
      else match split sep rest with
           | field :: fields => String c field :: fields
           | [] => [String c EmptyString]
           end
  end.

(** *** [float(s)] *)

Definition is_digit (c : ascii) : bool :=
  let n := N_of_ascii c in ((48 <=? n) && (n <=? 57))%N.

Definition digit_val (c : ascii) : Z := Z.of_N (N_of_ascii c) - 48.

(** The whitespace that [float] ignores at both ends, among the first 256
    code points. *)
Definition is_space (c : ascii) : bool :=
  let n := N_of_ascii c in
  ((n =? 32) || ((9 <=? n) && (n <=? 13)) || ((28 <=? n) && (n <=? 31))
   || (n =? 133) || (n =? 160))%N.

Fixpoint lstrip (l : list ascii) : list ascii :=
  match l with
  | c :: rest => if is_space c then lstrip rest else l
  | [] => []
  end.

Definition strip (l : list ascii) : list ascii :=
  rev (lstrip (rev (lstrip l))).

Definition lower (c : ascii) : ascii :=
  let n := N_of_ascii c in
  if ((65 <=? n) && (n <=? 90))%N then ascii_of_N (n + 32) else c.

(** The rest of a [digitpart] after its first digit: digits, each
    optionally preceded by one underscore.  [acc] is the value read so
    far, [cnt] the number of digits. *)
Fixpoint more_digits (l : list ascii) (acc : Z) (cnt : nat)
  : Z * nat * list ascii :=
  match l with
  | c :: rest =>
      if is_digit c then more_digits rest (10 * acc + digit_val c) (S cnt)
      else if (c =? "_")%char then
        match rest with
        | d :: rest' =>
            if is_digit d
            then more_digits rest' (10 * acc + digit_val d) (S cnt)
            else (acc, cnt, l)
        | [] => (acc, cnt, l)
        end
      else (acc, cnt, l)
  | [] => (acc, cnt, [])
  end.

Definition digitpart (l : list ascii) (acc : Z)
  : option (Z * nat * list ascii) :=
  match l with
  | c :: rest =>
      if is_digit c then Some (more_digits rest (10 * acc + digit_val c) 1%nat)
      else None
  | [] => None
  end.

(** [number ::= [digitpart] "." digitpart | digitpart ["."]]: the digits
    read as one integer, the count of those after the point, the rest. *)
Definition number (l : list ascii) : option (Z * nat * list ascii) :=
  match digitpart l 0 with
  | Some (ip, _, "."%char :: rest) =>
      match digitpart rest ip with
      | Some r => Some r
      | None => Some (ip, O, rest)
      end
  | Some (ip, _, rest) => Some (ip, O, rest)
  | None =>
      match l with
      | "."%char :: rest => digitpart rest 0
      | _ => None
      end
  end.

(** [exponent ::= ("e" | "E") [sign] digitpart], or nothing; the input
    must end there. *)
Definition exponent (l : list ascii) : option Z :=
  match l with
  | [] => Some 0
  | c :: rest =>
      if (lower c =? "e")%char then
        let '(neg, rest') :=
          match rest with
          | "-"%char :: r => (true, r)
          | "+"%char :: r => (false, r)
          | _ => (false, rest)
          end in
        match digitpart rest' 0 with
        | Some (e, _, []) => Some (if neg then - e else e)
        | _ => None
        end
      else None
  end.

(** [mant * 10 ^ e] as a rational in lowest terms. *)
Definition scale10 (mant e : Z) : Q :=
  if 0 <=? e then inject_Z (mant * 10 ^ e)
  else Qred (Qmake mant (Z.to_pos (10 ^ (- e)))).

Definition absfloatvalue (l : list ascii) : option pyfloat :=
  let word := string_of_list_ascii (map lower l) in
  if (word =? "inf")%string || (word =? "infinity")%string then Some PosInf
  else if (word =? "nan")%string then Some NaN
  else match number l with
       | Some (mant, nfrac, rest) =>
           match exponent rest with
           | Some e => Some (Finite (scale10 mant (e - Z.of_nat nfrac)))
           | None => None
           end
       | None => None
       end.

Definition negate (x : pyfloat) : pyfloat :=
  match x with
  | Finite q => Finite (Qred (- q))
  | PosInf => NegInf
  | NegInf => PosInf
  | NaN => NaN
  end.

(** [float(s)] for a string: surrounding whitespace is dropped, then
    [[sign] absfloatvalue]; anything else raises [ValueError]. *)
Definition float_of_str (s : string) : result pyfloat :=
  let body := strip (list_ascii_of_string s) in
  let '(neg, rest) :=
    match body with
    | "-"%char :: r => (true, r)
    | "+"%char :: r => (false, r)
    | _ => (false, body)
    end in
  match absfloatvalue rest with
  | Some x => Ok (if neg then negate x else x)
  | None => Raise ValueError
  end.

End Text.
Export Text.

(** ** The session and the monad of driver methods *)

(** What a method does, in the order it does it. *)
Inductive event : Type :=
| EvWrite (cmd : string)        (* [gpib.write(cmd)], also the sending half of a query *)
| EvReadRaw                     (* [gpib.read_raw()] returned a reply *)
| EvReadAscii                   (* the reading half of [gpib.query_ascii_values] *)
| EvSleep (secs : Z)            (* [time.sleep(secs)] *)
| EvPrint (line : string)       (* [print(line)] *)
| EvSave (name : string) (rows : list (list pyfloat))
                                (* a csv file written with these rows *).

(** An open session: the events so far and the replies the instrument
    gives next, one queue per kind of read.  A read on an empty queue is a
    timeout of the transport. *)
Record session : Type := mkSession {
  trace : list event;
  raw_in : list string;
  ascii_in : list (list pyfloat)
}.

Definition M (A : Type) : Type := session -> result A * session.

Definition ret {A} (a : A) : M A := fun s => (Ok a, s).

Definition bind {A B} (c : M A) (k : A -> M B) : M B :=
  fun s => match c s with
           | (Ok a, s') => k a s'
           | (Raise e, s') => (Raise e, s')
           end.

Definition lift {A} (r : result A) : M A := fun s => (r, s).

Declare Scope driver_scope.
Delimit Scope driver_scope with driver.
Notation "x <- c ;; k" := (bind c (fun x => k))
  (at level 61, c at next level, right associativity) : driver_scope.
Notation "c ;; k" := (bind c (fun _ => k))
  (at level 61, right associativity) : driver_scope.
Local Open Scope driver_scope.

Definition emit (e : event) : M unit :=
  fun s => (Ok tt, mkSession (trace s ++ [e]) (raw_in s) (ascii_in s)).

Definition print (line : string) : M unit := emit (EvPrint line).
Definition sleep (secs : Z) : M unit := emit (EvSleep secs).

Module Gpib.

Definition write (cmd : string) : M unit := emit (EvWrite cmd).

Definition read_raw : M string :=
  fun s => match raw_in s with
           | reply :: later =>
               (Ok reply, mkSession (trace s ++ [EvReadRaw]) later (ascii_in s))
           | [] => (Raise VisaIOError, s)
           end.

Definition read_ascii_values : M (list pyfloat) :=
  fun s => match ascii_in s with
           | reply :: later =>
               (Ok reply, mkSession (trace s ++ [EvReadAscii]) (raw_in s) later)
           | [] => (Raise VisaIOError, s)
           end.

(** [query_ascii_values(cmd)]: send, then read the parsed values. *)
Definition query_ascii_values (cmd : string) : M (list pyfloat) :=
  write cmd ;; read_ascii_values.

End Gpib.

(** The commands sent on the transport, in order. *)
Definition commands (t : list event) : list string :=
  flat_map (fun e => match e with EvWrite c => [c] | _ => [] end) t.

(** The lines printed, in order. *)
Definition printed (t : list event) : list string :=
  flat_map (fun e => match e with EvPrint l => [l] | _ => [] end) t.

(** [xs[i]] *)
Definition index {A} (xs : list A) (i : nat) : result A :=
  match nth_error xs i with
  | Some x => Ok x
  | None => Raise IndexError
  end.

(** [[f(x) for x in xs]] for an [f] that may raise. *)
Fixpoint map_result {A B} (f : A -> result B) (xs : list A) : result (list B) :=
  match xs with
  | [] => Ok []
  | x :: rest =>
      match f x with
      | Ok y => match map_result f rest with
                | Ok ys => Ok (y :: ys)
                | Raise e => Raise e
                end
      | Raise e => Raise e
      end
  end.

Module Numpy.

(** [round(np.log2(n))] for an integer [n].  For [n > 0] the result is
    the [k] with [2^(k-1/2) < n < 2^(k+1/2)], that is
    [2^(2k) <= 2*n*n < 2^(2k+2)]; no positive integer sits on a tie.
    [np.log2] of a negative number is NaN and of zero is minus infinity,
    which [round] refuses. *)
Definition round_log2 (n : Z) : result Z :=
  if 0 <? n then Ok (Z.log2 (2 * n * n) / 2)
  else if n =? 0 then Raise OverflowError
  else Raise ValueError.

(** [np.arange(0, n)] *)
Definition arange (n : Z) : list Z := map Z.of_nat (seq 0 (Z.to_nat n)).

End Numpy.

(** ** The driver *)

Module RigolDS1000.

Definition channels_ok : list Z := [1; 2; 3; 4].

Definition autoscale : M unit := Gpib.write ":AUT".
Definition clear : M unit := Gpib.write ":CLE".
Definition stop : M unit := Gpib.write ":STOP".
Definition single : M unit := Gpib.write ":SING".
Definition force_trigger : M unit := Gpib.write ":TFOR".

Definition set_acq_averages (num_avg : Z) : M unit :=
  num_avg <- (if num_avg >? 1024
              then print "Specified averages are too high. Setting to maximum." ;;
                   ret 1024
              else ret num_avg) ;;
  num_avg <- (if negb (num_avg mod 2 =? 0)
              then print "The number of averages has to be a power of 2. Setting to the closest." ;;
                   lift (Numpy.round_log2 num_avg)
              else ret num_avg) ;;
  Gpib.write ("ACQ:AVER " ++ fmt_d num_avg).

Definition set_acq_type (mode : string) : M unit :=
  if negb (in_strs mode ["NORM"; "AVER"; "PEAK"; "HRES"])
  then print "Acquisition mode not supported. Doing nothing."
  else Gpib.write (":ACQ:TYPE " ++ mode).

Definition set_bw (channel bw : Z) : M unit :=
  if negb (in_ints channel channels_ok)
  then print "Channel not correct. Doing nothing."
  else if negb (in_ints bw [0; 1])
  then print "Bandwidth option not correct. Doing nothing"
  else
    (if bw =? 0 then Gpib.write (":CHAN" ++ fmt_d channel ++ ":BWL OFF")
     else ret tt) ;;
    (if bw =? 1 then Gpib.write (":CHAN" ++ fmt_d channel ++ ":BWL 20M")
     else ret tt).

Definition set_coupling_type (channel : Z) (coupling : string) : M unit :=
  if negb (in_ints channel channels_ok)
  then print "Channel not correct. Doing nothing."
  else if negb (in_strs coupling ["AC"; "DC"; "GND"])
  then print "Coupling option not correct. Doing nothing"
  else Gpib.write (":CHAN" ++ fmt_d channel ++ ":COUP " ++ coupling).

Definition channel_display (channel on : Z) : M unit :=
  if negb (in_ints channel channels_ok)
  then print "Channel not correct. Doing nothing."
  else if negb (in_ints on [0; 1])
  then print "Display option not correct. Doing nothing"
  else Gpib.write (":CHAN" ++ fmt_d channel ++ ":DISP " ++ fmt_d on).

Definition set_vertical_range (channel : Z) (rnge offset : option pyfloat)
  : M unit :=
  if negb (in_ints channel channels_ok)
  then print "Channel not correct. Doing nothing."
  else
    match rnge with
    | Some r => Gpib.write (":CHAN" ++ fmt_d channel ++ ":RANG " ++ fmt_f 3 r)
    | None => ret tt
    end ;;
    match offset with
    | Some o => Gpib.write (":CHAN" ++ fmt_d channel ++ ":OFFS " ++ fmt_f 3 o)
    | None => ret tt
    end.

Definition set_horizonal_scale (scale : pyfloat) : M unit :=
  Gpib.write (":TIM:SCAL " ++ fmt_f 7 scale).

Definition set_horizontal_range (rnge : pyfloat) : M unit :=
  set_horizonal_scale (div_const rnge 12).

Definition items_ok : list string :=
  ["VMAX"; "VMIN"; "VPP"; "VAVG"; "PER"; "FREQ"].

(** The value returned is [None] on the two early returns. *)
Definition measure_item (channel : Z) (item : string) : M (option pyfloat) :=
  if negb (in_ints channel channels_ok)
  then print "Channel not correct. Doing nothing." ;; ret None
  else if negb (in_strs item items_ok)
  then print "Specified item to measure not correct. Doing nothing" ;; ret None
  else
    Gpib.write (":MEAS:ITEM " ++ item ++ ",CHAN" ++ fmt_d channel) ;;
    sleep 1 ;;
    values <- Gpib.query_ascii_values
                (":MEAS:ITEM? " ++ item ++ ",CHAN" ++ fmt_d channel) ;;
    v <- lift (index values 0) ;;
    ret (Some v).

Definition trigger_modes : list string :=
  ["EDGE"; "PULSE"; "RUNT"; "WIND"; "SLOPE"; "NEDG"; "PATT"; "DEL"].
Definition trigger_couplings : list string := ["AC"; "DC"; "LFR"; "HFR"].
Definition trigger_sweeps : list string := ["AUTO"; "NORM"; "SING"].

Definition set_trigger (mode coupling trig_number : string) (channel : Z)
           (level : option pyfloat) : M unit :=
  (if in_strs mode trigger_modes
   then Gpib.write (":TRIG:MODE " ++ mode) else ret tt) ;;
  (if in_strs coupling trigger_couplings
   then Gpib.write (":TRIG:COUP " ++ coupling) else ret tt) ;;
  (if in_strs trig_number trigger_sweeps
   then Gpib.write (":TRIG:SWE " ++ trig_number) else ret tt) ;;
  (if in_ints channel channels_ok
   then Gpib.write (":TRIG:" ++ mode ++ ":SOUR CHAN" ++ fmt_d channel)
   else ret tt) ;;
  match level with
  | Some l => Gpib.write (":TRIG:" ++ mode ++ ":LEV " ++ fmt_f 4 l)
  | None => ret tt
  end.

(** Lines 338-342: the reply without its first 11 bytes, printed as a
    [bytes] literal, cut to [[2:-3]], split at commas, each field
    converted with [float]. *)
Definition wav_fields (data : string) : list string :=
  split "," (slice 2 3 (str_of_bytes (drop 11 data))).

Definition parse_wav_data (data : string) : result (list pyfloat) :=
  map_result float_of_str (wav_fields data).

(** Lines 347-348:
    [list(np.arange(0, int(preamble[2]))*preamble[4] + preamble[5])]. *)
Definition wave_time_of (preamble : list pyfloat) : result (list pyfloat) :=
  match index preamble 2 with
  | Raise e => Raise e
  | Ok points =>
      match to_int points with
      | Raise e => Raise e
      | Ok n =>
          match index preamble 4 with
          | Raise e => Raise e
          | Ok increment =>
              match index preamble 5 with
              | Raise e => Raise e
              | Ok origin =>
                  Ok (map (fun i => add (mul (of_Z i) increment) origin)
                          (Numpy.arange n))
              end
          end
      end
  end.

Definition waveform : Type := list pyfloat * list pyfloat.

(** One pass of the [for c in channels] loop for a channel that passed
    the check (lines 335-356): the preamble and the (time, voltage) pair
    the pass appends. *)
Definition read_channel (c : Z) (file_name : option string)
  : M (list pyfloat * waveform) :=
  Gpib.write (":WAV:SOUR CHAN" ++ fmt_d c) ;;
  Gpib.write "WAV:DATA?" ;;
  data <- Gpib.read_raw ;;
  wav_data <- lift (parse_wav_data data) ;;
  preamble <- Gpib.query_ascii_values "WAV:PRE?" ;;
  wave_time <- lift (wave_time_of preamble) ;;
  match file_name with
  | Some name =>
      emit (EvSave (name ++ "_channel_" ++ fmt_d c ++ ".csv")
                   [preamble; wav_data])
  | None => ret tt
  end ;;
  ret (preamble, (wave_time, wav_data)).

(** The [for c in channels] loop, with the two accumulators. *)
Fixpoint read_channels (channels : list Z) (file_name : option string)
         (all_preambles : list (list pyfloat)) (all_waveforms : list waveform)
  : M (list (list pyfloat) * list waveform) :=
  match channels with
  | [] => ret (all_preambles, all_waveforms)
  | c :: later =>
      if negb (in_ints c channels_ok)
      then print "Specified channel not correct. Skipping it" ;;
           read_channels later file_name all_preambles all_waveforms
      else
        read <- read_channel c file_name ;;
        read_channels later file_name
                      (all_preambles ++ [fst read])
                      (all_waveforms ++ [snd read])
  end.

Definition read_waveform (channels : list Z) (file_name : option string)
  : M (list (list pyfloat) * list waveform) :=
  Gpib.write ":WAV:MODE NORM" ;;
  Gpib.write ":WAV:FORM ASCII" ;;
  read_channels channels file_name [] [].

End RigolDS1000.
Import RigolDS1000.

(** * Properties *)

(** ** Membership tests *)

Lemma in_ints_spec (x : Z) (xs : list Z) : in_ints x xs = true <-> In x xs.
Proof.
  unfold in_ints. rewrite existsb_exists. split.
  - intros [y [Hy E]]. apply Z.eqb_eq in E. now subst.
  - intro H. exists x. split; [assumption | apply Z.eqb_refl].
Qed.

Lemma in_strs_spec (x : string) (xs : list string) :
  in_strs x xs = true <-> In x xs.
Proof.
  unfold in_strs. rewrite existsb_exists. split.
  - intros [y [Hy E]]. apply String.eqb_eq in E. now subst.
  - intro H. exists x. split; [assumption | apply String.eqb_refl].
Qed.

Lemma in_ints_false (x : Z) (xs : list Z) : ~ In x xs -> in_ints x xs = false.
Proof.
  intro H. destruct (in_ints x xs) eqn:E; [| reflexivity].
  apply in_ints_spec in E. contradiction.
Qed.

Lemma in_strs_false (x : string) (xs : list string) :
  ~ In x xs -> in_strs x xs = false.
Proof.
  intro H. destruct (in_strs x xs) eqn:E; [| reflexivity].
  apply in_strs_spec in E. contradiction.
Qed.

(** ** Traces *)

Lemma commands_app (t u : list event) : commands (t ++ u) = (commands t ++ commands u)%list.
Proof. unfold commands. apply flat_map_app. Qed.

Lemma printed_app (t u : list event) : printed (t ++ u) = (printed t ++ printed u)%list.
Proof. unfold printed. apply flat_map_app. Qed.

(** A method run that sends nothing: its command list is the one it
    started with. *)
Definition sends_nothing {A} (m : M A) (s : session) : Prop :=
  commands (trace (snd (m s))) = commands (trace s).

(** The session after one more event. *)
Definition after (s : session) (events : list event) : session :=
  mkSession (trace s ++ events) (raw_in s) (ascii_in s).

Lemma commands_after_print (s : session) (line : string) :
  commands (trace (after s [EvPrint line])) = commands (trace s).
Proof. simpl. rewrite commands_app. simpl. apply app_nil_r. Qed.

Lemma after_after (s : session) (e1 e2 : list event) :
  after (after s e1) e2 = after s (e1 ++ e2).
Proof. unfold after. simpl. now rewrite app_assoc. Qed.

Lemma emit_after (e : event) (s : session) : emit e s = (Ok tt, after s [e]).
Proof. reflexivity. Qed.

Lemma after_nil (s : session) : after s [] = s.
Proof. destruct s. unfold after. simpl. now rewrite app_nil_r. Qed.

Definition empty_session : session := mkSession [] [] [].

(** Runs the straight-line part of a method and puts the trace in the
    form [trace s ++ events]. *)
Ltac run_method :=
  unfold after, Gpib.query_ascii_values, Gpib.write, Gpib.read_raw,
    Gpib.read_ascii_values, print, sleep, emit, lift, ret;
  cbn [bind trace raw_in ascii_in fst snd negb];
  repeat rewrite <- app_assoc; cbn [app].

(** ** Setters and an out-of-range channel *)

Definition channel_warning : event := EvPrint "Channel not correct. Doing nothing.".

Lemma set_bw_bad_channel (channel bw : Z) (s : session) :
  ~ In channel channels_ok ->
  set_bw channel bw s = (Ok tt, after s [channel_warning]).
Proof. intro H. unfold set_bw. now rewrite (in_ints_false _ _ H). Qed.

Lemma set_coupling_type_bad_channel (channel : Z) (coupling : string) (s : session) :
  ~ In channel channels_ok ->
  set_coupling_type channel coupling s = (Ok tt, after s [channel_warning]).
Proof. intro H. unfold set_coupling_type. now rewrite (in_ints_false _ _ H). Qed.

Lemma channel_display_bad_channel (channel on : Z) (s : session) :
  ~ In channel channels_ok ->
  channel_display channel on s = (Ok tt, after s [channel_warning]).
Proof. intro H. unfold channel_display. now rewrite (in_ints_false _ _ H). Qed.

Lemma set_vertical_range_bad_channel
      (channel : Z) (rnge offset : option pyfloat) (s : session) :
  ~ In channel channels_ok ->
  set_vertical_range channel rnge offset s = (Ok tt, after s [channel_warning]).
Proof. intro H. unfold set_vertical_range. now rewrite (in_ints_false _ _ H). Qed.

Lemma measure_item_bad_channel (channel : Z) (item : string) (s : session) :
  ~ In channel channels_ok ->
  measure_item channel item s = (Ok None, after s [channel_warning]).
Proof. intro H. unfold measure_item. now rewrite (in_ints_false _ _ H). Qed.

(** The commands [set_trigger] sends for its arguments other than the
    channel. *)
Definition trigger_commands_without_source
           (mode coupling trig_number : string) (level : option pyfloat)
  : list string :=
  ((if in_strs mode trigger_modes then [(":TRIG:MODE " ++ mode)%string] else [])
   ++ (if in_strs coupling trigger_couplings then [(":TRIG:COUP " ++ coupling)%string] else [])
   ++ (if in_strs trig_number trigger_sweeps then [(":TRIG:SWE " ++ trig_number)%string] else [])
   ++ match level with
      | Some l => [(":TRIG:" ++ mode ++ ":LEV " ++ fmt_f 4 l)%string]
      | None => []
      end)%list.

Lemma set_trigger_bad_channel
      (mode coupling trig_number : string) (channel : Z)
      (level : option pyfloat) (s : session) :
  ~ In channel channels_ok ->
  commands (trace (snd (set_trigger mode coupling trig_number channel level s)))
  = (commands (trace s)
     ++ trigger_commands_without_source mode coupling trig_number level)%list.
Proof.
  intro H. unfold set_trigger, trigger_commands_without_source.
  rewrite (in_ints_false _ _ H).
  destruct (in_strs mode trigger_modes), (in_strs coupling trigger_couplings),
    (in_strs trig_number trigger_sweeps), level;
    cbn [bind Gpib.write emit ret snd trace];
    repeat rewrite commands_app; cbn [commands flat_map app];
    repeat rewrite <- app_assoc; cbn [app];
    rewrite ?app_nil_r; reflexivity.
Qed.

(** C1, as the code has it.  With a channel outside 1..4, [set_bw],
    [set_coupling_type], [channel_display], [set_vertical_range] and
    [measure_item] send nothing (they print the channel warning and
    return).  [set_trigger] leaves out only its trigger-source command: it
    still sends the mode, coupling, sweep and level commands whose own
    arguments pass their checks. *)
Theorem bad_channel_setters (channel : Z) (s : session) :
  ~ In channel [1; 2; 3; 4] ->
  (forall bw, sends_nothing (set_bw channel bw) s)
  /\ (forall coupling, sends_nothing (set_coupling_type channel coupling) s)
  /\ (forall on, sends_nothing (channel_display channel on) s)
  /\ (forall rnge offset, sends_nothing (set_vertical_range channel rnge offset) s)
  /\ (forall item, sends_nothing (measure_item channel item) s)
  /\ (forall mode coupling trig_number level,
         commands (trace (snd (set_trigger mode coupling trig_number channel level s)))
         = (commands (trace s)
            ++ trigger_commands_without_source mode coupling trig_number level)%list).
Proof.
  intro H. unfold sends_nothing. repeat split; intros.
  - rewrite set_bw_bad_channel by exact H. apply commands_after_print.
  - rewrite set_coupling_type_bad_channel by exact H. apply commands_after_print.
  - rewrite channel_display_bad_channel by exact H. apply commands_after_print.
  - rewrite set_vertical_range_bad_channel by exact H. apply commands_after_print.
  - rewrite measure_item_bad_channel by exact H. apply commands_after_print.
  - now apply set_trigger_bad_channel.
Qed.

Lemma bad_channel_setters_witness :
  ~ In 5 [1; 2; 3; 4]
  /\ sends_nothing (set_bw 5 1) empty_session
  /\ commands (trace (snd (set_trigger "EDGE" "XX" "AUTO" 5 None empty_session)))
     = [":TRIG:MODE EDGE"; ":TRIG:SWE AUTO"].
Proof.
  assert (H : ~ In 5 [1; 2; 3; 4]) by (simpl; lia).
  split; [exact H |].
  destruct (bad_channel_setters 5 empty_session H) as (Hbw & _ & _ & _ & _ & Htrig).
  split; [apply Hbw | apply (Htrig "EDGE" "XX" "AUTO" None)].
Defined.

(** C1 as stated fails for [set_trigger]: with channel 5 it writes four
    commands. *)
Lemma set_trigger_writes_despite_bad_channel :
  ~ In 5 [1; 2; 3; 4]
  /\ commands (trace (snd (set_trigger "EDGE" "AC" "AUTO" 5 (Some (Finite (1 # 2)))
                                       empty_session)))
     = [":TRIG:MODE EDGE"; ":TRIG:COUP AC"; ":TRIG:SWE AUTO"; ":TRIG:EDGE:LEV 0.5000"]
  /\ ~ sends_nothing (set_trigger "EDGE" "AC" "AUTO" 5 (Some (Finite (1 # 2))))
                     empty_session.
Proof.
  split; [simpl; lia |]. split; [reflexivity |].
  unfold sends_nothing. vm_compute. discriminate.
Qed.

(** ** Averaging count *)

Definition too_high_warning : event :=
  EvPrint "Specified averages are too high. Setting to maximum.".
Definition power_of_2_warning : event :=
  EvPrint "The number of averages has to be a power of 2. Setting to the closest.".

(** The value [set_acq_averages] puts in its command, when it gets that
    far: the count cut at 1024, and for an odd count the rounded base-2
    logarithm. *)
Definition averages_sent (num_avg : Z) : Z :=
  let n := if num_avg >? 1024 then 1024 else num_avg in
  if n mod 2 =? 0 then n else Z.log2 (2 * n * n) / 2.


Lemma set_acq_averages_run (num_avg : Z) (s : session) :
  0 <= num_avg \/ num_avg mod 2 = 0 ->
  set_acq_averages num_avg s
  = (Ok tt,
     after s ((if num_avg >? 1024 then [too_high_warning] else [])
              ++ (if (if num_avg >? 1024 then 1024 else num_avg) mod 2 =? 0
                  then [] else [power_of_2_warning])
              ++ [EvWrite ("ACQ:AVER " ++ fmt_d (averages_sent num_avg))])).
Proof.
  intro Hdom. unfold set_acq_averages, averages_sent.
  destruct (Z.gtb_spec num_avg 1024) as [Hhi | Hlo].
  - run_method. change (1024 mod 2 =? 0) with true. now run_method.
  - run_method. destruct (Z.eqb_spec (num_avg mod 2) 0) as [Heven | Hodd].
    + now run_method.
    + assert (Hpos : 0 < num_avg).
      { destruct Hdom as [H | H]; [| contradiction].
        assert (num_avg <> 0) by (intros ->; now apply Hodd). lia. }
      unfold Numpy.round_log2.
      destruct (Z.ltb_spec 0 num_avg) as [_ | Hc]; [| lia].
      now run_method.
Qed.

(** C3.  A count above 1024 is sent as exactly 1024: the method prints
    that the count is too high and writes [ACQ:AVER 1024], nothing else. *)
Theorem averages_above_1024_clamped (num_avg : Z) (s : session) :
  1024 < num_avg ->
  set_acq_averages num_avg s
  = (Ok tt, after s [too_high_warning; EvWrite "ACQ:AVER 1024"]).
Proof.
  intro H. unfold set_acq_averages.
  destruct (Z.gtb_spec num_avg 1024) as [_ | Hc]; [| lia].
  run_method. change (1024 mod 2 =? 0) with true. now run_method.
Qed.

Lemma averages_above_1024_clamped_witness :
  1024 < 2000
  /\ set_acq_averages 2000 empty_session
     = (Ok tt, after empty_session [too_high_warning; EvWrite "ACQ:AVER 1024"]).
Proof.
  split; [lia | apply (averages_above_1024_clamped 2000 empty_session); lia].
Defined.

(** C2, at the count 5.  The method announces the closest power of 2 and
    then sends the rounded logarithm itself: [round(log2(5)) = 2], so the
    command is [ACQ:AVER 2], where the closest power of 2 is 4. *)
Theorem averages_5_sent_as_2 (s : session) :
  set_acq_averages 5 s
  = (Ok tt, after s [power_of_2_warning; EvWrite "ACQ:AVER 2"]).
Proof. rewrite set_acq_averages_run by (left; lia). reflexivity. Qed.

(** An even count that is no power of 2 is sent as it is. *)
Example averages_6_sent_as_6 (s : session) :
  set_acq_averages 6 s = (Ok tt, after s [EvWrite "ACQ:AVER 6"]).
Proof. rewrite set_acq_averages_run by (left; lia). reflexivity. Qed.




(** [round_log2] is rounding to the nearest integer on the logarithmic
    scale: [2^(k - 1/2) <= n < 2^(k + 1/2)], squared and doubled. *)
Lemma round_log2_nearest (n k : Z) :
  0 < n -> Numpy.round_log2 n = Ok k ->
  2 ^ (2 * k) <= 2 * n * n < 2 ^ (2 * k + 2).
Proof.
  intros Hn. unfold Numpy.round_log2.
  destruct (Z.ltb_spec 0 n) as [_ | Hc]; [| lia].
  intro E. assert (Ek : k = Z.log2 (2 * n * n) / 2) by congruence.
  subst k. clear E.
  assert (Hpos : 0 < 2 * n * n) by nia.
  pose proof (Z.log2_spec _ Hpos) as [Hlo Hhi].
  pose proof (Z.log2_nonneg (2 * n * n)) as Hnn.
  set (l := Z.log2 (2 * n * n)) in *.
  assert (Hk : 2 * (l / 2) <= l < 2 * (l / 2) + 2).
  { pose proof (Z.div_mod l 2 ltac:(lia)).
    pose proof (Z.mod_pos_bound l 2 ltac:(lia)). lia. }
  split.
  - apply Z.le_trans with (2 ^ l); [| exact Hlo].
    apply Z.pow_le_mono_r; lia.
  - apply Z.lt_le_trans with (2 ^ Z.succ l); [exact Hhi |].
    apply Z.pow_le_mono_r; lia.
Qed.

(** ** Measurement of an unsupported item *)

Definition item_warning : event :=
  EvPrint "Specified item to measure not correct. Doing nothing".

(** C5.  For an item outside the six supported ones, and any channel,
    [measure_item] returns [None] and sends no command: it only prints a
    warning (the channel warning when the channel is out of range too). *)
Theorem measure_item_unsupported (channel : Z) (item : string) (s : session) :
  ~ In item ["VMAX"; "VMIN"; "VPP"; "VAVG"; "PER"; "FREQ"] ->
  fst (measure_item channel item s) = Ok None
  /\ sends_nothing (measure_item channel item) s
  /\ exists warning,
      In warning [channel_warning; item_warning]
      /\ snd (measure_item channel item s) = after s [warning].
Proof.
  intro H. unfold sends_nothing, measure_item.
  destruct (in_ints channel channels_ok).
  - rewrite (in_strs_false item items_ok H). run_method.
    split; [reflexivity |]. split.
    + rewrite commands_app. apply app_nil_r.
    + exists item_warning. split; [right; now left | reflexivity].
  - run_method. split; [reflexivity |]. split.
    + rewrite commands_app. apply app_nil_r.
    + exists channel_warning. split; [now left | reflexivity].
Qed.

Lemma measure_item_unsupported_witness :
  ~ In "VRMS" ["VMAX"; "VMIN"; "VPP"; "VAVG"; "PER"; "FREQ"]
  /\ fst (measure_item 1 "VRMS" empty_session) = Ok None
  /\ sends_nothing (measure_item 1 "VRMS") empty_session.
Proof.
  assert (H : ~ In "VRMS" ["VMAX"; "VMIN"; "VPP"; "VAVG"; "PER"; "FREQ"]).
  { simpl. intros [E | [E | [E | [E | [E | [E | []]]]]]]; discriminate E. }
  split; [exact H |].
  destruct (measure_item_unsupported 1 "VRMS" empty_session H) as (Hret & Hsend & _).
  split; [exact Hret | exact Hsend].
Defined.

(** A supported item on a valid channel is set up, waited for and queried. *)
Example measure_item_vpp :
  measure_item 1 "VPP" (mkSession [] [] [[Finite (33 # 10)]])
  = (Ok (Some (Finite (33 # 10))),
     mkSession [EvWrite ":MEAS:ITEM VPP,CHAN1"; EvSleep 1;
                EvWrite ":MEAS:ITEM? VPP,CHAN1"; EvReadAscii] [] []).
Proof. reflexivity. Qed.

(** ** Horizontal range *)



Example horizontal_range_12 :
  commands (trace (snd (set_horizontal_range (of_Z 12) empty_session)))
  = [":TIM:SCAL 1.0000000"]
  /\ commands (trace (snd (set_horizontal_range (Finite (6 # 1000)) empty_session)))
     = [":TIM:SCAL 0.0005000"].
Proof. split; reflexivity. Qed.

(** ** Waveform read *)

Definition mode_setup : list event :=
  [EvWrite ":WAV:MODE NORM"; EvWrite ":WAV:FORM ASCII"].

(** C9.  With an empty channel list [read_waveform] writes the two
    mode-setup commands, does nothing else on the transport, and returns
    two empty lists. *)
Theorem read_waveform_no_channels (file_name : option string) (s : session) :
  read_waveform [] file_name s = (Ok ([], []), after s mode_setup)
  /\ commands (trace (snd (read_waveform [] file_name s)))
     = (commands (trace s) ++ [":WAV:MODE NORM"; ":WAV:FORM ASCII"])%list.
Proof.
  unfold read_waveform, read_channels. run_method.
  split; [reflexivity |]. rewrite commands_app. reflexivity.
Qed.

(** *** One channel *)

Definition save_events (file_name : option string) (c : Z)
           (preamble wav_data : list pyfloat) : list event :=
  match file_name with
  | Some name =>
      [EvSave (name ++ "_channel_" ++ fmt_d c ++ ".csv") [preamble; wav_data]]
  | None => []
  end.

(** The outcomes of reading one channel: no reply to [WAV:DATA?], a reply
    that does not parse, no preamble, a preamble that gives no time axis,
    or the pair. *)
Lemma read_channel_run (c : Z) (file_name : option string) (s : session) :
  read_channel c file_name s =
  let asked := [EvWrite (":WAV:SOUR CHAN" ++ fmt_d c); EvWrite "WAV:DATA?"] in
  match raw_in s with
  | [] => (Raise VisaIOError, after s asked)
  | data :: raws =>
      match parse_wav_data data with
      | Raise e =>
          (Raise e, mkSession (trace s ++ asked ++ [EvReadRaw]) raws (ascii_in s))
      | Ok wav_data =>
          match ascii_in s with
          | [] =>
              (Raise VisaIOError,
               mkSession (trace s ++ asked ++ [EvReadRaw; EvWrite "WAV:PRE?"])
                         raws [])
          | preamble :: later =>
              match wave_time_of preamble with
              | Raise e =>
                  (Raise e,
                   mkSession (trace s ++ asked
                              ++ [EvReadRaw; EvWrite "WAV:PRE?"; EvReadAscii])
                             raws later)
              | Ok wave_time =>
                  (Ok (preamble, (wave_time, wav_data)),
                   mkSession (trace s ++ asked
                              ++ [EvReadRaw; EvWrite "WAV:PRE?"; EvReadAscii]
                              ++ save_events file_name c preamble wav_data)
                             raws later)
              end
          end
      end
  end.
Proof.
  unfold read_channel. run_method.
  destruct (raw_in s) as [| data raws]; run_method; [reflexivity |].
  destruct (parse_wav_data data) as [wav_data | e]; run_method; [| reflexivity].
  destruct (ascii_in s) as [| preamble later]; run_method; [reflexivity |].
  destruct (wave_time_of preamble) as [wave_time | e]; run_method; [| reflexivity].
  destruct file_name; run_method; reflexivity.
Qed.

(** *** The loop *)

Definition valid_channels (channels : list Z) : list Z :=
  filter (fun c => in_ints c channels_ok) channels.

Definition skip_warning_line : string := "Specified channel not correct. Skipping it".

(** What one valid channel sends. *)
Definition channel_commands (c : Z) : list string :=
  [(":WAV:SOUR CHAN" ++ fmt_d c)%string; "WAV:DATA?"; "WAV:PRE?"].

(** A returned pair [w] comes from the raw reply and the preamble
    [reply]. *)
Definition decoded (w : waveform) (reply : string * list pyfloat) : Prop :=
  parse_wav_data (fst reply) = Ok (snd w) /\ wave_time_of (snd reply) = Ok (fst w).

Lemma valid_channels_length (channels : list Z) :
  (List.length (valid_channels channels) <= List.length channels)%nat.
Proof. apply filter_length_le. Qed.

Lemma commands_save_events file_name c preamble wav_data :
  commands (save_events file_name c preamble wav_data) = [].
Proof. now destruct file_name. Qed.

Lemma printed_save_events file_name c preamble wav_data :
  printed (save_events file_name c preamble wav_data) = [].
Proof. now destruct file_name. Qed.

Lemma read_channels_skip (c : Z) (later : list Z) fn P W (s : session) :
  in_ints c channels_ok = false ->
  read_channels (c :: later) fn P W s
  = read_channels later fn P W (after s [EvPrint skip_warning_line]).
Proof. intro H. cbn [read_channels]. now rewrite H. Qed.

Lemma read_channels_valid (c : Z) (later : list Z) fn P W (s : session) :
  in_ints c channels_ok = true ->
  read_channels (c :: later) fn P W s
  = match read_channel c fn s with
    | (Ok read, s') => read_channels later fn (P ++ [fst read]) (W ++ [snd read]) s'
    | (Raise e, s') => (Raise e, s')
    end.
Proof. intro H. cbn [read_channels]. now rewrite H. Qed.

(** What a completed loop has done. *)
Lemma read_channels_ok (channels : list Z) (fn : option string) :
  forall P W s pres wavs s',
    read_channels channels fn P W s = (Ok (pres, wavs), s') ->
    exists raws newP newW,
      pres = (P ++ newP)%list /\ wavs = (W ++ newW)%list
      /\ raw_in s = (raws ++ raw_in s')%list
      /\ ascii_in s = (newP ++ ascii_in s')%list
      /\ List.length raws = List.length (valid_channels channels)
      /\ List.length newP = List.length (valid_channels channels)
      /\ List.length newW = List.length (valid_channels channels)
      /\ Forall2 decoded newW (combine raws newP)
      /\ commands (trace s')
         = (commands (trace s)
            ++ flat_map channel_commands (valid_channels channels))%list
      /\ printed (trace s')
         = (printed (trace s)
            ++ repeat skip_warning_line
                      (List.length channels - List.length (valid_channels channels)))%list.
Proof.
  induction channels as [| c later IH]; intros P W s pres wavs s' H.
  - cbn in H. injection H as -> -> ->.
    exists [], [], []. cbn. rewrite !app_nil_r. repeat split; constructor.
  - unfold valid_channels. cbn [filter]. fold (valid_channels later).
    destruct (in_ints c channels_ok) eqn:Hc.
    + rewrite (read_channels_valid _ _ _ _ _ _ Hc), read_channel_run in H.
      cbv zeta in H.
      destruct (raw_in s) as [| data raws] eqn:Hraw; [discriminate H |].
      destruct (parse_wav_data data) as [wav_data | e] eqn:Hparse; [| discriminate H].
      destruct (ascii_in s) as [| preamble asciis] eqn:Hascii; [discriminate H |].
      destruct (wave_time_of preamble) as [wave_time | e] eqn:Htime; [| discriminate H].
      apply IH in H. cbn [fst snd trace raw_in ascii_in] in H.
      destruct H as (raws' & newP & newW & -> & -> & Hr & Ha & Lr & Lp & Lw & Hdec & Hcmd & Hprt).
      exists (data :: raws'), (preamble :: newP), ((wave_time, wav_data) :: newW).
      rewrite <- !app_assoc. cbn [app List.length combine].
      repeat split; try congruence.
      * constructor; [split; assumption | exact Hdec].
      * rewrite Hcmd, !commands_app, commands_save_events.
        cbn. rewrite <- !app_assoc. reflexivity.
      * rewrite Hprt, !printed_app, printed_save_events.
        cbn. rewrite !app_nil_r. reflexivity.
    + rewrite (read_channels_skip _ _ _ _ _ _ Hc) in H. apply IH in H.
      cbn [after trace raw_in ascii_in] in H.
      destruct H as (raws & newP & newW & -> & -> & Hr & Ha & Lr & Lp & Lw & Hdec & Hcmd & Hprt).
      exists raws, newP, newW. repeat split; try assumption.
      * rewrite Hcmd, commands_app. cbn. now rewrite app_nil_r.
      * rewrite Hprt, printed_app. cbn [printed flat_map app length].
        pose proof (valid_channels_length later) as Hle.
        change (List.length (c :: later)) with (S (List.length later)).
        replace (S (List.length later) - List.length (valid_channels later))%nat
          with (S (List.length later - List.length (valid_channels later))) by lia.
        rewrite <- app_assoc. reflexivity.
Qed.









Lemma read_waveform_unfold (channels : list Z) (fn : option string) (s : session) :
  read_waveform channels fn s = read_channels channels fn [] [] (after s mode_setup).
Proof. unfold read_waveform. now run_method. Qed.


Lemma valid_channels_In (c : Z) (channels : list Z) :
  In c (valid_channels channels) <-> In c channels /\ In c [1; 2; 3; 4].
Proof. unfold valid_channels. rewrite filter_In, in_ints_spec. reflexivity. Qed.



(** A session about to answer one channel: three samples announced, three
    values sent, the reply ended by a newline as the instrument does. *)
Definition newline : string := String "010" EmptyString.

Definition three_point_preamble : list pyfloat :=
  [of_Z 0; of_Z 0; of_Z 3; of_Z 1; Finite (Qred 0.001); Finite 0].

Definition three_point_session : session :=
  mkSession [] ["#9000000012" ++ "1.0,2.0,3.5" ++ newline] [three_point_preamble].

Example read_three_points :
  read_waveform [7; 1; 9] (Some "run") three_point_session
  = (Ok ([three_point_preamble],
         [([Finite 0; Finite (Qred 0.001); Finite (Qred 0.002)],
           [Finite 1; Finite 2; Finite (Qred 3.5)])]),
     mkSession
       [EvWrite ":WAV:MODE NORM"; EvWrite ":WAV:FORM ASCII";
        EvPrint skip_warning_line;
        EvWrite ":WAV:SOUR CHAN1"; EvWrite "WAV:DATA?"; EvReadRaw;
        EvWrite "WAV:PRE?"; EvReadAscii;
        EvSave "run_channel_1.csv"
               [three_point_preamble; [Finite 1; Finite 2; Finite (Qred 3.5)]];
        EvPrint skip_warning_line]
       [] []).
Proof. reflexivity. Qed.


(** *** Lengths of the two lists of a pair *)











(** *** The synthetic reply *)

Definition synthetic_reply : string := "#9000000011" ++ "1.0,2.0,3.0".

(** The reply has no final newline, so the [[2:-3]] cut of line 341 takes
    the closing quote and the last two characters of the data with it: the
    last field is read as [3], which is the same number. *)
Lemma synthetic_reply_fields : wav_fields synthetic_reply = ["1.0"; "2.0"; "3"].
Proof. reflexivity. Qed.


(** Without the newline a last field such as [3.5] loses its fraction. *)
Example cut_without_newline :
  parse_wav_data ("#9000000011" ++ "1.0,2.0,3.5") = Ok [Finite 1; Finite 2; Finite 3]
  /\ parse_wav_data ("#9000000012" ++ "1.0,2.0,3.5" ++ newline)
     = Ok [Finite 1; Finite 2; Finite (Qred 3.5)].
Proof. split; reflexivity. Qed.



(** * Further properties of the driver *)

(** ** Splitting a reply into fields *)

(** [sep.join(fields)] *)
Fixpoint join (sep : ascii) (fields : list string) : string :=
  match fields with
  | [] => EmptyString
  | [field] => field
  | field :: later => field ++ String sep (join sep later)
  end.

(** The number of occurrences of a character. *)
Fixpoint occurrences (c : ascii) (s : string) : nat :=
  match s with
  | EmptyString => O
  | String d rest => if (d =? c)%char then S (occurrences c rest)
                     else occurrences c rest
  end.

Lemma split_cons (sep : ascii) (s : string) :
  exists field fields, split sep s = field :: fields.
Proof.
  destruct s as [| c rest]; cbn [split].
  - now exists EmptyString, [].
  - destruct (c =? sep)%char.
    + now exists EmptyString, (split sep rest).
    + destruct (split sep rest) as [| field fields];
        [now exists (String c EmptyString), []
        | now exists (String c field), fields].
Qed.

Lemma join_cons_char (sep c : ascii) (field : string) (fields : list string) :
  join sep (String c field :: fields) = String c (join sep (field :: fields)).
Proof. destruct fields; reflexivity. Qed.

(** Joining the fields of a split with the separator gives the string
    back. *)
Theorem split_join (sep : ascii) (s : string) : join sep (split sep s) = s.
Proof.
  induction s as [| c rest IH]; [reflexivity |].
  cbn [split]. destruct (Ascii.eqb_spec c sep) as [-> | Hne].
  - destruct (split_cons sep rest) as (field & fields & E).
    rewrite E in *.
    change (join sep (EmptyString :: field :: fields))
      with (String sep (join sep (field :: fields))).
    now rewrite IH.
  - destruct (split_cons sep rest) as (field & fields & E).
    rewrite E in *. now rewrite join_cons_char, IH.
Qed.

(** A split gives one field more than there are separators, and no field
    holds a separator. *)
Theorem split_fields (sep : ascii) (s : string) :
  List.length (split sep s) = S (occurrences sep s)
  /\ Forall (fun field => contains sep field = false) (split sep s).
Proof.
  induction s as [| c rest [IHn IHf]].
  - split; [reflexivity | now repeat constructor].
  - cbn [split occurrences]. destruct (Ascii.eqb_spec c sep) as [-> | Hne].
    + split; [cbn; now rewrite IHn | now constructor].
    + destruct (split_cons sep rest) as (field & fields & E).
      rewrite E in *. split; [exact IHn |].
      inversion IHf as [| ? ? Hfield Hrest]; subst.
      constructor; [| exact Hrest].
      cbn [contains]. rewrite Hfield.
      destruct (Ascii.eqb_spec c sep); [contradiction | reflexivity].
Qed.

(** ** The cut of the raw reply (lines 338-341) *)

(** Bytes that [str(bytes)] prints as themselves between single quotes:
    printable ASCII other than the single quote and the backslash. *)
Definition plain (c : ascii) : bool :=
  let n := N_of_ascii c in
  ((32 <=? n) && (n <=? 126))%N
  && negb (c =? quote1)%char && negb (c =? backslash)%char.

Fixpoint plain_str (s : string) : bool :=
  match s with
  | EmptyString => true
  | String c rest => plain c && plain_str rest
  end.

Lemma repr_byte_plain (c : ascii) :
  plain c = true -> repr_byte quote1 c = String c EmptyString.
Proof.
  destruct c as [[] [] [] [] [] [] [] []]; intro H;
    solve [reflexivity | discriminate H].
Qed.

Lemma plain_not_quote (c : ascii) : plain c = true -> (c =? quote1)%char = false.
Proof.
  unfold plain. destruct (c =? quote1)%char; [| reflexivity].
  rewrite andb_false_r. discriminate.
Qed.

Lemma plain_str_app (a b : string) :
  plain_str (a ++ b) = plain_str a && plain_str b.
Proof.
  induction a as [| c a IH]; [reflexivity |].
  cbn. now rewrite IH, andb_assoc.
Qed.

Lemma append_assoc (a b c : string) : (a ++ b) ++ c = a ++ (b ++ c).
Proof. induction a as [| d a IH]; [reflexivity | cbn; now rewrite IH]. Qed.

Lemma repr_body_app (quote : ascii) (a b : string) :
  repr_body quote (a ++ b) = repr_body quote a ++ repr_body quote b.
Proof.
  induction a as [| c a IH]; [reflexivity |].
  cbn. rewrite IH. symmetry. apply append_assoc.
Qed.

Lemma repr_body_plain (s : string) : plain_str s = true -> repr_body quote1 s = s.
Proof.
  induction s as [| c s IH]; [reflexivity |].
  cbn [plain_str repr_body]. intro H. apply andb_prop in H. destruct H as [Hc Hs].
  now rewrite (repr_byte_plain c Hc), (IH Hs).
Qed.

Lemma contains_app (c : ascii) (a b : string) :
  contains c (a ++ b) = contains c a || contains c b.
Proof.
  induction a as [| d a IH]; [reflexivity |].
  cbn. now rewrite IH, orb_assoc.
Qed.

Lemma contains_quote_plain (s : string) :
  plain_str s = true -> contains quote1 s = false.
Proof.
  induction s as [| c s IH]; [reflexivity |].
  cbn [plain_str contains]. intro H. apply andb_prop in H. destruct H as [Hc Hs].
  now rewrite (plain_not_quote c Hc), (IH Hs).
Qed.

Lemma length_append (a b : string) :
  String.length (a ++ b) = (String.length a + String.length b)%nat.
Proof. induction a as [| c a IH]; [reflexivity | cbn; now rewrite IH]. Qed.

Lemma substring_prefix (a b : string) : substring 0 (String.length a) (a ++ b) = a.
Proof.
  induction a as [| c a IH]; cbn.
  - now destruct b.
  - now rewrite IH.
Qed.

Lemma drop_append (a b : string) : drop (String.length a) (a ++ b) = b.
Proof. induction a as [| c a IH]; [now destruct b | exact IH]. Qed.

Lemma drop_short (n : nat) (s : string) :
  (String.length s <= n)%nat -> drop n s = EmptyString.
Proof.
  revert s. induction n as [| n IH]; intros [| c s] H; cbn in *;
    try reflexivity; try lia.
  apply IH. lia.
Qed.

(** The [[2:-3]] cut of the printed bytes keeps a plain payload and drops
    whatever three characters follow it. *)
Lemma slice_payload (payload tail : string) :
  String.length tail = 3%nat ->
  slice 2 3 (String "b" (String quote1 (payload ++ tail))) = payload.
Proof.
  intro H. unfold slice. cbn [String.length].
  rewrite length_append, H.
  replace (S (S (String.length payload + 3)) - 3 - 2)%nat
    with (String.length payload) by lia.
  cbn [substring]. apply substring_prefix.
Qed.

Lemma str_of_bytes_plain (payload tail : string) :
  plain_str payload = true ->
  contains quote1 tail = false ->
  str_of_bytes (payload ++ tail)
  = String "b" (String quote1
                  (payload ++ repr_body quote1 tail ++ String quote1 EmptyString)).
Proof.
  intros Hp Ht. unfold str_of_bytes.
  rewrite contains_app, (contains_quote_plain _ Hp), Ht. cbn [orb andb].
  now rewrite repr_body_app, (repr_body_plain _ Hp), append_assoc.
Qed.

(** On a reply made of an 11-byte header, a payload of plain characters
    and the final newline, the fields are exactly the comma-separated
    fields of the payload: one more than it has commas, and joined by
    commas they give the payload back. *)
Theorem wav_fields_newline (header payload : string) :
  String.length header = 11%nat ->
  plain_str payload = true ->
  wav_fields (header ++ payload ++ newline) = split "," payload
  /\ List.length (wav_fields (header ++ payload ++ newline))
     = S (occurrences "," payload)
  /\ join "," (wav_fields (header ++ payload ++ newline)) = payload.
Proof.
  intros Hh Hp.
  assert (E : wav_fields (header ++ payload ++ newline) = split "," payload).
  { unfold wav_fields. rewrite <- Hh, drop_append.
    rewrite (str_of_bytes_plain payload newline Hp eq_refl).
    now rewrite slice_payload. }
  rewrite E. split; [reflexivity |]. split.
  - apply split_fields.
  - apply split_join.
Qed.

Lemma wav_fields_newline_witness :
  String.length "#9000000012" = 11%nat
  /\ plain_str "1.0e-02,-2.5,3.5" = true
  /\ wav_fields ("#9000000012" ++ "1.0e-02,-2.5,3.5" ++ newline)
     = ["1.0e-02"; "-2.5"; "3.5"].
Proof.
  split; [reflexivity |]. split; [reflexivity |].
  destruct (wav_fields_newline "#9000000012" "1.0e-02,-2.5,3.5" eq_refl eq_refl)
    as [E _].
  exact E.
Defined.



Lemma float_of_str_error (s : string) (e : exn) :
  float_of_str s = Raise e -> e = ValueError.
Proof.
  unfold float_of_str.
  destruct (match strip (list_ascii_of_string s) with
            | "-"%char :: r => (true, r)
            | "+"%char :: r => (false, r)
            | _ => (false, strip (list_ascii_of_string s))
            end) as [neg rest].
  destruct (absfloatvalue rest); [discriminate | congruence].
Qed.

Lemma map_result_error {A B} (f : A -> result B) (xs : list A) (e : exn) :
  map_result f xs = Raise e -> exists x, In x xs /\ f x = Raise e.
Proof.
  induction xs as [| x xs IH]; cbn; [discriminate |].
  destruct (f x) as [y | e'] eqn:Hx.
  - destruct (map_result f xs) as [ys | e'']; [discriminate |].
    intro H. destruct (IH H) as (x' & Hin & Hx'). exists x'. auto.
  - intro H. exists x. split; [now left | congruence].
Qed.

(** Parsing a reply raises nothing but [ValueError], and does raise it on
    a reply that has no more than the 11 bytes of a header: the one field
    is then the empty string. *)
Theorem parse_wav_data_errors (data : string) :
  (forall e, parse_wav_data data = Raise e -> e = ValueError)
  /\ ((String.length data <= 11)%nat -> parse_wav_data data = Raise ValueError).
Proof.
  split.
  - intros e H. apply map_result_error in H. destruct H as (x & _ & Hx).
    now apply float_of_str_error in Hx.
  - intro H. unfold parse_wav_data, wav_fields.
    now rewrite (drop_short 11 data H).
Qed.

Lemma parse_wav_data_errors_witness :
  (String.length "#9000000000" <= 11)%nat
  /\ parse_wav_data "#9000000000" = Raise ValueError.
Proof.
  assert (H : (String.length "#9000000000" <= 11)%nat) by apply le_n.
  split; [exact H |].
  destruct (parse_wav_data_errors "#9000000000") as [_ Hshort].
  exact (Hshort H).
Defined.

(** ** The averaging count, case by case *)

(** An odd count from 1 to 1023 is replaced by its rounded base-2
    logarithm [k], so the value sent lies between 0 and 10; the count 1 is
    sent as 0. *)
Theorem averages_odd_sent_as_log2 (num_avg : Z) (s : session) :
  0 < num_avg <= 1024 -> num_avg mod 2 = 1 ->
  exists k : Z,
    0 <= k <= 10
    /\ 2 ^ (2 * k) <= 2 * num_avg * num_avg < 2 ^ (2 * k + 2)
    /\ set_acq_averages num_avg s
       = (Ok tt, after s [power_of_2_warning; EvWrite ("ACQ:AVER " ++ fmt_d k)]).
Proof.
  intros Hn Hodd. exists (Z.log2 (2 * num_avg * num_avg) / 2).
  assert (Hround : Numpy.round_log2 num_avg = Ok (Z.log2 (2 * num_avg * num_avg) / 2)).
  { unfold Numpy.round_log2. destruct (Z.ltb_spec 0 num_avg); [reflexivity | lia]. }
  split; [| split].
  - split.
    + apply Z.div_pos; [apply Z.log2_nonneg | lia].
    + assert (Hl : Z.log2 (2 * num_avg * num_avg) <= Z.log2 (2 * 1024 * 1024)).
      { apply Z.log2_le_mono. nia. }
      change (Z.log2 (2 * 1024 * 1024)) with 21 in Hl.
      apply Z.le_trans with (21 / 2); [| now vm_compute].
      apply Z.div_le_mono; lia.
  - apply round_log2_nearest; [lia | exact Hround].
  - rewrite set_acq_averages_run by lia. unfold averages_sent.
    destruct (Z.gtb_spec num_avg 1024) as [Hhi | _]; [lia |].
    rewrite Hodd. reflexivity.
Qed.

Lemma averages_odd_sent_as_log2_witness :
  0 < 1 <= 1024 /\ 1 mod 2 = 1
  /\ set_acq_averages 1 empty_session
     = (Ok tt, after empty_session [power_of_2_warning; EvWrite "ACQ:AVER 0"]).
Proof.
  assert (H1 : 0 < 1 <= 1024) by lia.
  assert (H2 : 1 mod 2 = 1) by reflexivity.
  split; [exact H1 |]. split; [exact H2 |].
  destruct (averages_odd_sent_as_log2 1 empty_session H1 H2) as (k & _ & _ & _).
  reflexivity.
Defined.

(** An even count up to 1024 is sent as it is, with no warning: zero,
    negative counts and counts that are no power of 2 included. *)
Theorem averages_even_sent_unchanged (num_avg : Z) (s : session) :
  num_avg <= 1024 -> num_avg mod 2 = 0 ->
  set_acq_averages num_avg s
  = (Ok tt, after s [EvWrite ("ACQ:AVER " ++ fmt_d num_avg)]).
Proof.
  intros Hn Heven. rewrite set_acq_averages_run by (now right).
  unfold averages_sent.
  destruct (Z.gtb_spec num_avg 1024) as [Hhi | _]; [lia |].
  rewrite Heven. reflexivity.
Qed.

Lemma averages_even_sent_unchanged_witness :
  -6 <= 1024 /\ (-6) mod 2 = 0
  /\ set_acq_averages (-6) empty_session
     = (Ok tt, after empty_session [EvWrite "ACQ:AVER -6"]).
Proof.
  assert (H1 : -6 <= 1024) by lia.
  assert (H2 : (-6) mod 2 = 0) by reflexivity.
  split; [exact H1 |]. split; [exact H2 |].
  exact (averages_even_sent_unchanged (-6) empty_session H1 H2).
Defined.



(** ** Setters with checked arguments *)

(** A call that does exactly one thing and returns: it writes [cmd] when
    its arguments are [valid], and otherwise prints one line. *)
Definition writes_or_warns (m : M unit) (s : session) (valid : bool) (cmd : string)
  : Prop :=
  if valid then m s = (Ok tt, after s [EvWrite cmd])
  else exists line, m s = (Ok tt, after s [EvPrint line]).

(** [set_acq_type], [set_bw], [set_coupling_type] and [channel_display]
    each write one command when every argument passes its check and print
    one line otherwise, never both; they never raise and never read. *)
Theorem checked_setters (s : session) :
  (forall mode,
      writes_or_warns (set_acq_type mode) s
                      (in_strs mode ["NORM"; "AVER"; "PEAK"; "HRES"])
                      (":ACQ:TYPE " ++ mode))
  /\ (forall channel bw,
         writes_or_warns (set_bw channel bw) s
                         (in_ints channel [1; 2; 3; 4] && in_ints bw [0; 1])
                         (":CHAN" ++ fmt_d channel ++ ":BWL "
                          ++ (if bw =? 0 then "OFF" else "20M")))
  /\ (forall channel coupling,
         writes_or_warns (set_coupling_type channel coupling) s
                         (in_ints channel [1; 2; 3; 4]
                          && in_strs coupling ["AC"; "DC"; "GND"])
                         (":CHAN" ++ fmt_d channel ++ ":COUP " ++ coupling))
  /\ (forall channel on,
         writes_or_warns (channel_display channel on) s
                         (in_ints channel [1; 2; 3; 4] && in_ints on [0; 1])
                         (":CHAN" ++ fmt_d channel ++ ":DISP " ++ fmt_d on)).
Proof.
  unfold writes_or_warns. repeat split.
  - intro mode. unfold set_acq_type.
    destruct (in_strs mode _); cbn [negb]; [reflexivity | eexists; reflexivity].
  - intros channel bw. unfold set_bw. change channels_ok with [1; 2; 3; 4].
    destruct (in_ints channel [1; 2; 3; 4]); cbn [negb andb];
      [| eexists; reflexivity].
    destruct (in_ints bw [0; 1]) eqn:Hbw; cbn [negb]; [| eexists; reflexivity].
    apply in_ints_spec in Hbw. destruct Hbw as [<- | [<- | []]]; now run_method.
  - intros channel coupling. unfold set_coupling_type.
    change channels_ok with [1; 2; 3; 4].
    destruct (in_ints channel [1; 2; 3; 4]); cbn [negb andb];
      [| eexists; reflexivity].
    destruct (in_strs coupling _); cbn [negb]; [reflexivity | eexists; reflexivity].
  - intros channel on. unfold channel_display.
    change channels_ok with [1; 2; 3; 4].
    destruct (in_ints channel [1; 2; 3; 4]); cbn [negb andb];
      [| eexists; reflexivity].
    destruct (in_ints on [0; 1]); cbn [negb]; [reflexivity | eexists; reflexivity].
Qed.

(** On a valid channel [set_vertical_range] writes the range, then the
    offset, each only when it is given; with neither it does nothing. *)
Theorem vertical_range_writes (channel : Z) (rnge offset : option pyfloat)
        (s : session) :
  In channel [1; 2; 3; 4] ->
  set_vertical_range channel rnge offset s
  = (Ok tt,
     after s (match rnge with
              | Some r => [EvWrite (":CHAN" ++ fmt_d channel ++ ":RANG " ++ fmt_f 3 r)]
              | None => []
              end
              ++ match offset with
                 | Some o => [EvWrite (":CHAN" ++ fmt_d channel ++ ":OFFS " ++ fmt_f 3 o)]
                 | None => []
                 end))
  /\ set_vertical_range channel None None s = (Ok tt, s).
Proof.
  intro H. apply in_ints_spec in H. unfold set_vertical_range.
  change channels_ok with [1; 2; 3; 4]. rewrite H. cbn [negb].
  split; [destruct rnge, offset; run_method; rewrite ?app_nil_r; now destruct s |].
  reflexivity.
Qed.

Lemma vertical_range_writes_witness :
  In 2 [1; 2; 3; 4]
  /\ set_vertical_range 2 (Some (Finite (5 # 2))) (Some (Finite (-1 # 8))) empty_session
     = (Ok tt, after empty_session [EvWrite ":CHAN2:RANG 2.500";
                                    EvWrite ":CHAN2:OFFS -0.125"]).
Proof.
  assert (H : In 2 [1; 2; 3; 4]) by (right; left; reflexivity).
  split; [exact H |].
  destruct (vertical_range_writes 2 (Some (Finite (5 # 2))) (Some (Finite (-1 # 8)))
                                  empty_session H) as [E _].
  exact E.
Defined.

(** ** The trigger setter *)

(** Everything [set_trigger] sends, in order. *)
Definition trigger_commands (mode coupling trig_number : string) (channel : Z)
           (level : option pyfloat) : list string :=
  ((if in_strs mode trigger_modes then [(":TRIG:MODE " ++ mode)%string] else [])
   ++ (if in_strs coupling trigger_couplings
       then [(":TRIG:COUP " ++ coupling)%string] else [])
   ++ (if in_strs trig_number trigger_sweeps
       then [(":TRIG:SWE " ++ trig_number)%string] else [])
   ++ (if in_ints channel channels_ok
       then [(":TRIG:" ++ mode ++ ":SOUR CHAN" ++ fmt_d channel)%string] else [])
   ++ match level with
      | Some l => [(":TRIG:" ++ mode ++ ":LEV " ++ fmt_f 4 l)%string]
      | None => []
      end)%list.

Lemma set_trigger_run (mode coupling trig_number : string) (channel : Z)
      (level : option pyfloat) (s : session) :
  set_trigger mode coupling trig_number channel level s
  = (Ok tt,
     after s (map EvWrite (trigger_commands mode coupling trig_number channel level))).
Proof.
  unfold set_trigger, trigger_commands.
  destruct (in_strs mode trigger_modes), (in_strs coupling trigger_couplings),
    (in_strs trig_number trigger_sweeps), (in_ints channel channels_ok), level;
    run_method; rewrite ?app_nil_r; try reflexivity; now destruct s.
Qed.

Lemma commands_map_write (cmds : list string) : commands (map EvWrite cmds) = cmds.
Proof.
  unfold commands. induction cmds as [| c cmds IH]; [reflexivity |].
  cbn. now rewrite IH.
Qed.

Lemma printed_map_write (cmds : list string) : printed (map EvWrite cmds) = [].
Proof. induction cmds as [| c cmds IH]; [reflexivity | exact IH]. Qed.

(** [set_trigger] skips an argument that fails its check without a word:
    it never prints, never raises and never reads.  Its source and level
    commands carry the mode exactly as given, whether or not that mode
    passed the mode check. *)
Theorem set_trigger_silent (mode coupling trig_number : string) (channel : Z)
        (level : option pyfloat) (s : session) :
  let s' := snd (set_trigger mode coupling trig_number channel level s) in
  fst (set_trigger mode coupling trig_number channel level s) = Ok tt
  /\ printed (trace s') = printed (trace s)
  /\ raw_in s' = raw_in s /\ ascii_in s' = ascii_in s
  /\ (List.length (commands (trace s')) <= List.length (commands (trace s)) + 5)%nat
  /\ (In channel [1; 2; 3; 4] ->
      In (":TRIG:" ++ mode ++ ":SOUR CHAN" ++ fmt_d channel)%string
         (commands (trace s')))
  /\ (forall l, level = Some l ->
                In (":TRIG:" ++ mode ++ ":LEV " ++ fmt_f 4 l)%string
                   (commands (trace s'))).
Proof.
  intro s'. subst s'. rewrite set_trigger_run. cbn [fst snd after trace raw_in ascii_in].
  rewrite printed_app, commands_app, printed_map_write, commands_map_write, app_nil_r.
  repeat split.
  - rewrite length_app. apply Nat.add_le_mono_l. unfold trigger_commands.
    destruct (in_strs mode trigger_modes), (in_strs coupling trigger_couplings),
      (in_strs trig_number trigger_sweeps), (in_ints channel channels_ok), level;
      cbn; lia.
  - intro Hc. apply in_ints_spec in Hc. apply in_or_app. right.
    unfold trigger_commands. change channels_ok with [1; 2; 3; 4]. rewrite Hc.
    apply in_or_app. right. apply in_or_app. right. apply in_or_app. right.
    now left.
  - intros l ->. apply in_or_app. right. unfold trigger_commands.
    apply in_or_app. right. apply in_or_app. right. apply in_or_app. right.
    apply in_or_app. right. now left.
Qed.

Lemma set_trigger_silent_witness :
  In 1 [1; 2; 3; 4]
  /\ ~ In "EDGY" trigger_modes
  /\ In ":TRIG:EDGY:SOUR CHAN1"
        (commands (trace (snd (set_trigger "EDGY" "AC" "AUTO" 1 None empty_session)))).
Proof.
  assert (H : In 1 [1; 2; 3; 4]) by (left; reflexivity).
  split; [exact H |]. split.
  - cbn. intros [E | [E | [E | [E | [E | [E | [E | [E | []]]]]]]]]; discriminate E.
  - destruct (set_trigger_silent "EDGY" "AC" "AUTO" 1 None empty_session)
      as (_ & _ & _ & _ & _ & Hsour & _).
    exact (Hsour H).
Defined.

(** ** A measurement that goes through *)

(** With a valid channel and a supported item, [measure_item] writes the
    set-up command, sleeps one second and sends the query.  It returns the
    first value of the reply; it raises [VisaIOError] when no reply comes
    and [IndexError] when the reply holds no value, in both cases after the
    two commands were sent. *)
Theorem measure_item_valid (channel : Z) (item : string) (s : session) :
  In channel [1; 2; 3; 4] ->
  In item ["VMAX"; "VMIN"; "VPP"; "VAVG"; "PER"; "FREQ"] ->
  let asked := [EvWrite (":MEAS:ITEM " ++ item ++ ",CHAN" ++ fmt_d channel);
                EvSleep 1;
                EvWrite (":MEAS:ITEM? " ++ item ++ ",CHAN" ++ fmt_d channel)] in
  measure_item channel item s
  = match ascii_in s with
    | [] => (Raise VisaIOError, after s asked)
    | [] :: later =>
        (Raise IndexError,
         mkSession (trace s ++ asked ++ [EvReadAscii]) (raw_in s) later)
    | (v :: _) :: later =>
        (Ok (Some v),
         mkSession (trace s ++ asked ++ [EvReadAscii]) (raw_in s) later)
    end.
Proof.
  intros Hc Hi asked. subst asked.
  apply in_ints_spec in Hc. apply in_strs_spec in Hi.
  unfold measure_item. change channels_ok with [1; 2; 3; 4].
  change items_ok with ["VMAX"; "VMIN"; "VPP"; "VAVG"; "PER"; "FREQ"].
  rewrite Hc, Hi. run_method.
  destruct (ascii_in s) as [| [| v values] later]; run_method; reflexivity.
Qed.

Lemma measure_item_valid_witness :
  In 3 [1; 2; 3; 4]
  /\ In "FREQ" ["VMAX"; "VMIN"; "VPP"; "VAVG"; "PER"; "FREQ"]
  /\ measure_item 3 "FREQ" (mkSession [] [] [[]])
     = (Raise IndexError,
        mkSession [EvWrite ":MEAS:ITEM FREQ,CHAN3"; EvSleep 1;
                   EvWrite ":MEAS:ITEM? FREQ,CHAN3"; EvReadAscii] [] []).
Proof.
  assert (Hc : In 3 [1; 2; 3; 4]) by (right; right; left; reflexivity).
  assert (Hi : In "FREQ" ["VMAX"; "VMIN"; "VPP"; "VAVG"; "PER"; "FREQ"])
    by (do 5 right; left; reflexivity).
  split; [exact Hc |]. split; [exact Hi |].
  exact (measure_item_valid 3 "FREQ" (mkSession [] [] [[]]) Hc Hi).
Defined.

(** ** The time axis (lines 347-348) *)


Lemma index_short {A} (xs : list A) (i : nat) :
  (List.length xs <= i)%nat -> index xs i = Raise IndexError.
Proof.
  intro H. unfold index. now rewrite (proj2 (nth_error_None xs i) H).
Qed.







(** ** More on the waveform read *)

Lemma read_channels_app (l1 l2 : list Z) (fn : option string) :
  forall P W s,
    read_channels (l1 ++ l2) fn P W s
    = match read_channels l1 fn P W s with
      | (Ok (P', W'), s') => read_channels l2 fn P' W' s'
      | (Raise e, s') => (Raise e, s')
      end.
Proof.
  induction l1 as [| c l1 IH]; intros P W s; [reflexivity |].
  change ((c :: l1) ++ l2)%list with (c :: (l1 ++ l2)%list).
  destruct (in_ints c channels_ok) eqn:Hc.
  - rewrite !(read_channels_valid _ _ _ _ _ _ Hc).
    destruct (read_channel c fn s) as [[read | e] s']; [apply IH | reflexivity].
  - rewrite !(read_channels_skip _ _ _ _ _ _ Hc). apply IH.
Qed.

(** Reading a list of channels followed by more channels is reading the
    first list and going on from where it ended; when the read of the first
    list raises, the longer read raises the same exception at the same
    point: the later channels are never asked for and nothing is
    returned. *)
Theorem read_waveform_aborts (l1 l2 : list Z) (fn : option string) (s : session) :
  read_waveform (l1 ++ l2) fn s
  = match read_waveform l1 fn s with
    | (Ok (pres, wavs), s') => read_channels l2 fn pres wavs s'
    | (Raise e, s') => (Raise e, s')
    end
  /\ forall e, fst (read_waveform l1 fn s) = Raise e ->
               read_waveform (l1 ++ l2) fn s = read_waveform l1 fn s.
Proof.
  assert (E : read_waveform (l1 ++ l2) fn s
              = match read_waveform l1 fn s with
                | (Ok (pres, wavs), s') => read_channels l2 fn pres wavs s'
                | (Raise e, s') => (Raise e, s')
                end).
  { rewrite !read_waveform_unfold. apply read_channels_app. }
  split; [exact E |].
  intros e H. rewrite E.
  destruct (read_waveform l1 fn s) as [[[pres wavs] | e'] s']; [discriminate H | reflexivity].
Qed.

Lemma read_waveform_aborts_witness :
  fst (read_waveform [1] None empty_session) = Raise VisaIOError
  /\ read_waveform ([1] ++ [2; 3]) None empty_session
     = (Raise VisaIOError,
        after empty_session (mode_setup ++ [EvWrite ":WAV:SOUR CHAN1";
                                            EvWrite "WAV:DATA?"])).
Proof.
  assert (H : fst (read_waveform [1] None empty_session) = Raise VisaIOError)
    by reflexivity.
  split; [exact H |].
  destruct (read_waveform_aborts [1] [2; 3] None empty_session) as [_ Habort].
  rewrite (Habort VisaIOError H). reflexivity.
Defined.

Lemma skipn_length_app {A} (l r : list A) : skipn (List.length l) (l ++ r) = r.
Proof. induction l as [| x l IH]; [reflexivity | exact IH]. Qed.

(** A read that returns has taken exactly one raw reply and one preamble
    per valid channel from the instrument, in order; it cannot return when
    the instrument has fewer of either. *)
Theorem read_waveform_consumes (channels : list Z) (fn : option string)
        (s s' : session) (pres : list (list pyfloat)) (wavs : list waveform) :
  read_waveform channels fn s = (Ok (pres, wavs), s') ->
  let k := List.length (valid_channels channels) in
  (k <= List.length (raw_in s))%nat
  /\ (k <= List.length (ascii_in s))%nat
  /\ raw_in s' = skipn k (raw_in s)
  /\ ascii_in s' = skipn k (ascii_in s).
Proof.
  rewrite read_waveform_unfold. intros H k. subst k.
  apply read_channels_ok in H. cbn [after raw_in ascii_in] in H.
  destruct H as (raws & newP & newW & _ & _ & Hr & Ha & Lr & Lp & _).
  split; [| split; [| split]].
  - rewrite Hr, length_app. lia.
  - rewrite Ha, length_app. lia.
  - rewrite <- Lr, Hr. symmetry. apply skipn_length_app.
  - rewrite <- Lp, Ha. symmetry. apply skipn_length_app.
Qed.

Lemma read_waveform_consumes_witness :
  read_waveform [7; 1; 9] None three_point_session
  = (Ok ([three_point_preamble],
         [([Finite 0; Finite (Qred 0.001); Finite (Qred 0.002)],
           [Finite 1; Finite 2; Finite (Qred 3.5)])]),
     snd (read_waveform [7; 1; 9] None three_point_session))
  /\ raw_in (snd (read_waveform [7; 1; 9] None three_point_session))
     = skipn 1 (raw_in three_point_session).
Proof.
  assert (H : read_waveform [7; 1; 9] None three_point_session
              = (Ok ([three_point_preamble],
                     [([Finite 0; Finite (Qred 0.001); Finite (Qred 0.002)],
                       [Finite 1; Finite 2; Finite (Qred 3.5)])]),
                 snd (read_waveform [7; 1; 9] None three_point_session)))
    by reflexivity.
  split; [exact H |].
  destruct (read_waveform_consumes _ _ _ _ _ _ H) as (_ & _ & Hraw & _).
  exact Hraw.
Defined.

(** *** Saved files *)

(** The csv files written, in order: name and rows. *)
Definition saved (t : list event) : list (string * list (list pyfloat)) :=
  flat_map (fun e => match e with EvSave name rows => [(name, rows)] | _ => [] end) t.

(** One file per valid channel, named after the channel, holding the
    preamble row and the sample row; none without a file name. *)
Definition csv_files (fn : option string) (good : list Z)
           (pres : list (list pyfloat)) (wavs : list waveform)
  : list (string * list (list pyfloat)) :=
  match fn with
  | None => []
  | Some name =>
      map (fun entry : Z * (list pyfloat * waveform) =>
             ((name ++ "_channel_" ++ fmt_d (fst entry) ++ ".csv")%string,
              [fst (snd entry); snd (snd (snd entry))]))
          (combine good (combine pres wavs))
  end.

Lemma saved_app (t u : list event) : saved (t ++ u) = (saved t ++ saved u)%list.
Proof. unfold saved. apply flat_map_app. Qed.

Lemma read_channels_saved (channels : list Z) (fn : option string) :
  forall P W s pres wavs s',
    read_channels channels fn P W s = (Ok (pres, wavs), s') ->
    exists newP newW,
      pres = (P ++ newP)%list /\ wavs = (W ++ newW)%list
      /\ saved (trace s')
         = (saved (trace s) ++ csv_files fn (valid_channels channels) newP newW)%list.
Proof.
  induction channels as [| c later IH]; intros P W s pres wavs s' H.
  - cbn in H. injection H as -> -> ->. exists [], [].
    rewrite !app_nil_r. repeat split. destruct fn; cbn; now rewrite app_nil_r.
  - unfold valid_channels. cbn [filter]. fold (valid_channels later).
    destruct (in_ints c channels_ok) eqn:Hc.
    + rewrite (read_channels_valid _ _ _ _ _ _ Hc), read_channel_run in H.
      cbv zeta in H.
      destruct (raw_in s) as [| data raws]; [discriminate H |].
      destruct (parse_wav_data data) as [wav_data | e]; [| discriminate H].
      destruct (ascii_in s) as [| preamble asciis]; [discriminate H |].
      destruct (wave_time_of preamble) as [wave_time | e]; [| discriminate H].
      apply IH in H. cbn [fst snd trace] in H.
      destruct H as (newP & newW & -> & -> & Hsaved).
      exists (preamble :: newP), ((wave_time, wav_data) :: newW).
      rewrite <- !app_assoc. repeat split.
      rewrite Hsaved, !saved_app, <- !app_assoc. f_equal.
      destruct fn; reflexivity.
    + rewrite (read_channels_skip _ _ _ _ _ _ Hc) in H. apply IH in H.
      destruct H as (newP & newW & -> & -> & Hsaved).
      exists newP, newW. repeat split.
      rewrite Hsaved. cbn [after trace]. rewrite saved_app. cbn.
      now rewrite app_nil_r.
Qed.

(** A read that returns with a file name has written one csv file per
    valid channel, in request order, named [<name>_channel_<n>.csv], with
    two rows: the preamble and the voltages of that channel.  Without a
    file name it writes none. *)
Theorem read_waveform_saves (channels : list Z) (fn : option string)
        (s s' : session) (pres : list (list pyfloat)) (wavs : list waveform) :
  read_waveform channels fn s = (Ok (pres, wavs), s') ->
  saved (trace s')
  = (saved (trace s) ++ csv_files fn (valid_channels channels) pres wavs)%list.
Proof.
  rewrite read_waveform_unfold. intro H. apply read_channels_saved in H.
  destruct H as (newP & newW & -> & -> & Hsaved).
  rewrite Hsaved. cbn [after trace mode_setup]. rewrite saved_app. cbn.
  now rewrite app_nil_r.
Qed.

Lemma read_waveform_saves_witness :
  read_waveform [7; 1; 9] (Some "run") three_point_session
  = (Ok ([three_point_preamble],
         [([Finite 0; Finite (Qred 0.001); Finite (Qred 0.002)],
           [Finite 1; Finite 2; Finite (Qred 3.5)])]),
     snd (read_waveform [7; 1; 9] (Some "run") three_point_session))
  /\ saved (trace (snd (read_waveform [7; 1; 9] (Some "run") three_point_session)))
     = [("run_channel_1.csv",
         [three_point_preamble; [Finite 1; Finite 2; Finite (Qred 3.5)]])].
Proof.
  assert (H : read_waveform [7; 1; 9] (Some "run") three_point_session
              = (Ok ([three_point_preamble],
                     [([Finite 0; Finite (Qred 0.001); Finite (Qred 0.002)],
                       [Finite 1; Finite 2; Finite (Qred 3.5)])]),
                 snd (read_waveform [7; 1; 9] (Some "run") three_point_session)))
    by reflexivity.
  split; [exact H |].
  rewrite (read_waveform_saves _ _ _ _ _ _ H). reflexivity.
Defined.

(** * Finding, opening and closing the instrument

    The part of the class that runs before and after a session:
    [__init__], [initialize], [close], [find_address], [_set_address] and
    the script at the end of the file.  The VISA resource manager is the
    environment: what it lists for a search string and what it gives when
    asked to open an address. *)

Module Connection.

(** Exceptions of this layer. *)
Inductive error : Type :=
| Warning (msg : string)
| ConnectionError (msg : string)
| AttributeError                 (* a method called on [None] *)
| ListIndexError                 (* [addresses[0]] on an empty list *)
| UnboundLocalError              (* a local read before assignment *)
| FromDriver (e : exn)           (* raised by a driver method on the session *)
| OtherError (name : string)     (* any other exception of the VISA library *).

Inductive outcome (A : Type) : Type :=
| Done (a : A)
| Failed (e : error).
Arguments Done {A} a.
Arguments Failed {A} e.

Record resource_manager : Type := mkManager {
  list_resources : string -> outcome (list string);
  open_resource : string -> outcome session
}.

(** What the script and the methods of this layer print. *)
Inductive shown : Type :=
| Line (text : string)
| Value (v : option pyfloat).

(** The object: its fields, whether [gpib.close()] was called, and the
    console. *)
Record instrument : Type := mkInstrument {
  rm : resource_manager;
  instr_address : option string;
  gpib : option session;
  is_initialized : bool;
  closed : bool;
  console : list shown
}.

Definition MANUFACTURER_ID : N := 6833.          (* 0x1AB1 *)

(** [ScopeTypes]: the members of the enumeration, in definition order. *)
Definition ScopeTypes : list (string * N) := [("DS1054Z", 1230%N)].  (* 0x04CE *)

Definition hex_upper (n : N) : ascii :=
  nth (N.to_nat n) (list_ascii_of_string "0123456789ABCDEF") "0"%char.

Fixpoint hex_digits (fuel : nat) (n : N) (acc : string) : string :=
  match fuel with
  | O => acc
  | S f =>
      let acc' := String (hex_upper (n mod 16)) acc in
      if (n / 16 =? 0)%N then acc' else hex_digits f (n / 16) acc'
  end.

(** ['{:04X}'.format(n)] *)
Definition fmt_04X (n : N) : string :=
  zfill 4 (hex_digits (S (N.size_nat n)) n EmptyString).

Fixpoint drop_while (p : ascii -> bool) (l : list ascii) : list ascii :=
  match l with
  | c :: rest => if p c then drop_while p rest else l
  | [] => []
  end.

(** [s.rstrip(chars)]: trailing characters that occur in [chars] go. *)
Definition rstrip (chars s : string) : string :=
  string_of_list_ascii
    (rev (drop_while (fun c => contains c chars) (rev (list_ascii_of_string s)))).

Definition model_clause (code : N) : string :=
  "(VI_ATTR_MODEL_CODE==0x" ++ fmt_04X code ++ ") || ".

Definition search_of (model_string : string) : string :=
  "USB?*?{VI_ATTR_MANF_ID==0x" ++ fmt_04X MANUFACTURER_ID
    ++ " && (" ++ model_string ++ ")}".

(** The loop of lines 71-74 over the members [types]: the model string
    and the search string after it ([None] while unassigned). *)
Fixpoint build_search (types : list (string * N)) (model_string : string)
         (search_string : option string) : string * option string :=
  match types with
  | [] => (model_string, search_string)
  | spec :: later =>
      let model_string := model_string ++ model_clause (snd spec) in
      let model_string := rstrip " || " model_string in
      build_search later model_string (Some (search_of model_string))
  end.

Definition new (manager : resource_manager) (address : option string) : instrument :=
  mkInstrument manager address None false false [].

Definition say (text : string) (i : instrument) : instrument :=
  mkInstrument (rm i) (instr_address i) (gpib i) (is_initialized i) (closed i)
               (console i ++ [Line text]).

Definition _set_address (address : string) (i : instrument) : instrument :=
  mkInstrument (rm i) (Some address) (gpib i) (is_initialized i) (closed i)
               (console i).

Definition initialize (override_address : option string) (i : instrument)
  : outcome unit * instrument :=
  let i := match override_address with
           | Some address => _set_address address i
           | None => i
           end in
  match instr_address i with
  | None => (Done tt, say "No instrument address was provided, cannot initialize" i)
  | Some address =>
      let i := say "Opening connnection to Rigol Oscilloscope" i in
      match open_resource (rm i) address with
      | Done s =>
          (Done tt,
           mkInstrument (rm i) (instr_address i) (Some s) true (closed i) (console i))
      | Failed (ConnectionError _) =>
          (Failed (ConnectionError "Cannot connect to Rigol Oscilloscope"), i)
      | Failed e => (Failed e, i)
      end
  end.

Definition close (i : instrument) : outcome unit * instrument :=
  let i := say "Disconnecting Rigol Oscilloscope" i in
  match gpib i with
  | None => (Failed AttributeError, i)
  | Some s =>
      (Done tt,
       mkInstrument (rm i) (instr_address i) (gpib i) (is_initialized i) true
                    (console i))
  end.

Definition find_address (i : instrument) : outcome (list string) * instrument :=
  match snd (build_search ScopeTypes " " None) with
  | None => (Failed UnboundLocalError, i)
  | Some search_string =>
      match list_resources (rm i) search_string with
      | Failed (Warning _) =>
          (Failed (Warning "No connected oscilloscopes were found"), i)
      | Failed e => (Failed e, i)
      | Done scope_list =>
          match scope_list with
          | [only] =>
              let i := say "Only found one connected oscilloscope, applying this address." i in
              (Done scope_list, _set_address only i)
          | _ => (Done scope_list, i)
          end
      end
  end.

(** A driver method run on the open session of the object. *)
Definition on_session {A} (m : M A) (i : instrument) : outcome A * instrument :=
  match gpib i with
  | None => (Failed AttributeError, i)
  | Some s =>
      let '(r, s') := m s in
      let i' := mkInstrument (rm i) (instr_address i) (Some s') (is_initialized i)
                             (closed i) (console i) in
      match r with
      | Ok a => (Done a, i')
      | Raise e => (Failed (FromDriver e), i')
      end
  end.

(** The script under [if __name__ == '__main__']. *)
Definition main (manager : resource_manager) : outcome unit * instrument :=
  let osc := new manager None in
  match find_address osc with
  | (Failed e, osc) => (Failed e, osc)
  | (Done addresses, osc) =>
      match addresses with
      | [] => (Failed ListIndexError, osc)
      | first :: _ =>
          match initialize (Some first) osc with
          | (Failed e, osc) => (Failed e, osc)
          | (Done _, osc) =>
              match on_session (measure_item 1 "VPP") osc with
              | (Failed e, osc) => (Failed e, osc)
              | (Done v, osc) =>
                  let osc :=
                    mkInstrument (rm osc) (instr_address osc) (gpib osc)
                                 (is_initialized osc) (closed osc)
                                 (console osc ++ [Value v]) in
                  close osc
              end
          end
      end
  end.

End Connection.

Module ConnectionFacts.
Import Connection.

(** The search expression [find_address] hands to the resource manager. *)
Definition scope_query : string :=
  "USB?*?{VI_ATTR_MANF_ID==0x1AB1 && ( (VI_ATTR_MODEL_CODE==0x04CE))}".

Lemma build_search_scope_types :
  build_search ScopeTypes " " None = (" (VI_ATTR_MODEL_CODE==0x04CE)", Some scope_query).
Proof. reflexivity. Qed.

(** [initialize] uses the override address when there is one, and stores
    it even when the open fails.  Without any address it opens nothing and
    returns.  With an address it opens that resource: on success the
    object holds the session and is initialized; on failure the call
    raises, and the session and the initialized flag are as before. *)
Theorem initialize_outcomes (override_address : option string) (i : instrument) :
  let address := match override_address with
                 | Some a => Some a
                 | None => instr_address i
                 end in
  let i' := snd (initialize override_address i) in
  instr_address i' = address
  /\ rm i' = rm i /\ closed i' = closed i
  /\ match address with
     | None =>
         fst (initialize override_address i) = Done tt
         /\ gpib i' = gpib i /\ is_initialized i' = is_initialized i
     | Some a =>
         match open_resource (rm i) a with
         | Done s =>
             fst (initialize override_address i) = Done tt
             /\ gpib i' = Some s /\ is_initialized i' = true
         | Failed e =>
             (exists e', fst (initialize override_address i) = Failed e')
             /\ gpib i' = gpib i /\ is_initialized i' = is_initialized i
         end
     end.
Proof.
  unfold initialize.
  destruct override_address as [a |]; cbn [_set_address instr_address rm say].
  - destruct (open_resource (rm i) a) as [s | e]; cbn.
    + repeat split.
    + destruct e; cbn; repeat split; eexists; reflexivity.
  - destruct (instr_address i) as [a |] eqn:Ha; cbn.
    + destruct (open_resource (rm i) a) as [s | e]; cbn.
      * repeat split; assumption.
      * destruct e; cbn; repeat split; try assumption; eexists; reflexivity.
    + repeat split; assumption.
Qed.

(** [find_address] returns what the resource manager lists for the search
    expression.  When that is exactly one address it becomes the address
    of the object, whatever address the object had; with none or several
    the object is left as it was.  When the listing raises, so does the
    call. *)
Theorem find_address_outcomes (i : instrument) :
  match list_resources (rm i) scope_query with
  | Done [only] =>
      fst (find_address i) = Done [only]
      /\ instr_address (snd (find_address i)) = Some only
  | Done found =>
      find_address i = (Done found, i)
  | Failed e =>
      exists e', find_address i = (Failed e', i)
  end.
Proof.
  unfold find_address. rewrite build_search_scope_types. cbn [snd].
  destruct (list_resources (rm i) scope_query) as [[| only [| another more]] | e].
  - reflexivity.
  - split; reflexivity.
  - reflexivity.
  - destruct e; eexists; reflexivity.
Qed.

Lemma find_address_run (i : instrument) :
  find_address i
  = match list_resources (rm i) scope_query with
    | Done [only] =>
        (Done [only],
         _set_address only
           (say "Only found one connected oscilloscope, applying this address." i))
    | Done found => (Done found, i)
    | Failed (Warning _) => (Failed (Warning "No connected oscilloscopes were found"), i)
    | Failed e => (Failed e, i)
    end.
Proof.
  unfold find_address. rewrite build_search_scope_types. cbn [snd].
  destruct (list_resources (rm i) scope_query) as [[| only [| another more]] | e];
    reflexivity.
Qed.

Lemma initialize_run (first : string) (i : instrument) :
  initialize (Some first) i
  = let i1 := say "Opening connnection to Rigol Oscilloscope" (_set_address first i) in
    match open_resource (rm i) first with
    | Done s =>
        (Done tt,
         mkInstrument (rm i) (Some first) (Some s) true (closed i) (console i1))
    | Failed (ConnectionError _) =>
        (Failed (ConnectionError "Cannot connect to Rigol Oscilloscope"), i1)
    | Failed e => (Failed e, i1)
    end.
Proof. reflexivity. Qed.

(** The rest of the script once the session [s] is open. *)
Lemma main_after_open (manager : resource_manager) (first : string) (s : session)
      (lines : list shown) :
  let rest :=
    match on_session (measure_item 1 "VPP")
                     (mkInstrument manager (Some first) (Some s) true false lines)
    with
    | (Failed e, osc) => (Failed e, osc)
    | (Done v, osc) =>
        close (mkInstrument (rm osc) (instr_address osc) (gpib osc)
                            (is_initialized osc) (closed osc)
                            (console osc ++ [Value v]))
    end in
  gpib (snd rest) = Some (snd (measure_item 1 "VPP" s))
  /\ instr_address (snd rest) = Some first
  /\ match fst (measure_item 1 "VPP" s) with
     | Ok v =>
         fst rest = Done tt
         /\ closed (snd rest) = true
         /\ exists before,
             console (snd rest)
             = (before ++ [Value v; Line "Disconnecting Rigol Oscilloscope"])%list
     | Raise e =>
         fst rest = Failed (FromDriver e) /\ closed (snd rest) = false
     end.
Proof.
  intros rest. subst rest. unfold on_session. cbn [gpib].
  destruct (measure_item 1 "VPP" s) as [[v | e] s'].
  - cbn. repeat split. exists lines. now rewrite <- app_assoc.
  - cbn. repeat split.
Qed.

(** The script asks for the addresses and connects to the first one.  With
    no address found it stops with an index error before any connection.
    Otherwise the only traffic on the opened session is that of
    [measure_item(1, "VPP")]; when the measurement returns, its value is
    printed and the connection closed; when it raises, the script ends
    with the connection still open. *)
Theorem main_outcomes (manager : resource_manager) :
  match list_resources manager scope_query with
  | Failed e => exists e', fst (main manager) = Failed e'
  | Done [] =>
      fst (main manager) = Failed ListIndexError
      /\ gpib (snd (main manager)) = None
  | Done (first :: _) =>
      match open_resource manager first with
      | Failed e =>
          (exists e', fst (main manager) = Failed e')
          /\ gpib (snd (main manager)) = None
      | Done s =>
          gpib (snd (main manager)) = Some (snd (measure_item 1 "VPP" s))
          /\ instr_address (snd (main manager)) = Some first
          /\ match fst (measure_item 1 "VPP" s) with
             | Ok v =>
                 fst (main manager) = Done tt
                 /\ closed (snd (main manager)) = true
                 /\ exists before,
                     console (snd (main manager))
                     = (before ++ [Value v; Line "Disconnecting Rigol Oscilloscope"])%list
             | Raise e =>
                 fst (main manager) = Failed (FromDriver e)
                 /\ closed (snd (main manager)) = false
             end
      end
  end.
Proof.
  unfold main. rewrite find_address_run. unfold new. cbn [rm].
  destruct (list_resources manager scope_query) as [[| first [| another more]] | e].
  - split; reflexivity.
  - rewrite initialize_run. unfold say, _set_address.
    cbn [rm closed console instr_address gpib is_initialized].
    destruct (open_resource manager first) as [s | e].
    + apply (main_after_open manager first s).
    + destruct e; (split; [eexists; reflexivity | reflexivity]).
  - rewrite initialize_run. unfold say, _set_address.
    cbn [rm closed console instr_address gpib is_initialized].
    destruct (open_resource manager first) as [s | e].
    + apply (main_after_open manager first s).
    + destruct e; (split; [eexists; reflexivity | reflexivity]).
  - destruct e; eexists; reflexivity.
Qed.

(** One model test of the search expression, without separator. *)
Definition model_test (code : N) : string :=
  "(VI_ATTR_MODEL_CODE==0x" ++ fmt_04X code ++ ")".

Fixpoint model_tests (types : list (string * N)) : string :=
  match types with
  | [] => EmptyString
  | spec :: later => model_test (snd spec) ++ model_tests later
  end.

Lemma list_ascii_of_string_app (a b : string) :
  list_ascii_of_string (a ++ b)
  = (list_ascii_of_string a ++ list_ascii_of_string b)%list.
Proof. induction a as [| c a IH]; [reflexivity | cbn; now rewrite IH]. Qed.

Lemma string_of_list_ascii_app (a b : list ascii) :
  string_of_list_ascii (a ++ b) = string_of_list_ascii a ++ string_of_list_ascii b.
Proof. induction a as [| c a IH]; [reflexivity | cbn; now rewrite IH]. Qed.

Lemma append_nil_r (a : string) : a ++ EmptyString = a.
Proof. induction a as [| c a IH]; [reflexivity | cbn; now rewrite IH]. Qed.

Lemma rstrip_separator (s : string) : rstrip " || " (s ++ ") || ") = s ++ ")".
Proof.
  unfold rstrip. rewrite list_ascii_of_string_app, rev_app_distr.
  cbn [list_ascii_of_string rev app drop_while].
  change (contains " " " || ") with true.
  change (contains "|" " || ") with true.
  change (contains ")" " || ") with false.
  cbn [rev]. rewrite rev_involutive, string_of_list_ascii_app.
  now rewrite string_of_list_ascii_of_string.
Qed.

Lemma rstrip_clause (model_string : string) (code : N) :
  rstrip " || " (model_string ++ model_clause code)
  = model_string ++ model_test code.
Proof.
  unfold model_clause, model_test.
  replace (model_string ++ "(VI_ATTR_MODEL_CODE==0x" ++ fmt_04X code ++ ") || ")
    with ((model_string ++ "(VI_ATTR_MODEL_CODE==0x" ++ fmt_04X code) ++ ") || ")
    by (now rewrite !append_assoc).
  rewrite rstrip_separator. now rewrite !append_assoc.
Qed.

Lemma build_search_run (types : list (string * N)) :
  forall model_string search_string,
    build_search types model_string search_string
    = (model_string ++ model_tests types,
       match types with
       | [] => search_string
       | _ => Some (search_of (model_string ++ model_tests types))
       end).
Proof.
  induction types as [| spec later IH]; intros model_string search_string.
  - cbn. now rewrite append_nil_r.
  - cbn [build_search model_tests]. rewrite rstrip_clause, IH, append_assoc.
    destruct later; [| reflexivity].
    cbn [model_tests]. now rewrite !append_nil_r.
Qed.

(** The loop that builds the search expression strips, in each pass, the
    separator it has just appended: for any enumeration of models the
    expression holds the model tests one after the other with no [||]
    between them. *)
Theorem build_search_drops_separators (types : list (string * N)) :
  types <> [] ->
  build_search types " " None
  = (" " ++ model_tests types, Some (search_of (" " ++ model_tests types))).
Proof.
  intro H. rewrite build_search_run. destruct types; [contradiction | reflexivity].
Qed.

Lemma build_search_drops_separators_witness :
  [("DS1054Z", 1230%N); ("DS1104Z", 1231%N)] <> []
  /\ snd (build_search [("DS1054Z", 1230%N); ("DS1104Z", 1231%N)] " " None)
     = Some "USB?*?{VI_ATTR_MANF_ID==0x1AB1 && ( (VI_ATTR_MODEL_CODE==0x04CE)(VI_ATTR_MODEL_CODE==0x04CF))}".
Proof.
  assert (H : [("DS1054Z", 1230%N); ("DS1104Z", 1231%N)] <> []) by discriminate.
  split; [exact H |].
  rewrite (build_search_drops_separators _ H). reflexivity.
Defined.

End ConnectionFacts.
